(** * nutter: cluster configuration and the command-line front end

    A shallow embedding of [common/clustermanager.py] and of the [NutterCLI]
    class of [cli/nuttercli.py], with the properties of the specification
    that concern them.

    Python values that come out of [json.load] are a small inductive type,
    dictionaries are finite maps with string keys, exceptions are an
    explicit outcome, and console output and the calls made to the
    collaborators of the CLI are recorded in a trace. *)

From stdpp Require Import base option list strings gmap fin_maps.
From Stdlib Require Import ZArith Ascii.

Set Warnings "-register-all".
Open Scope Z_scope.

(** ** Python values *)

(** What [json.load] builds: [None], booleans, integers, strings, lists and
    dictionaries keyed by strings. JSON numbers with a fraction or an
    exponent (Python floats) are left out. *)
Inductive pyval : Type :=
| PyNone
| PyBool (b : bool)
| PyInt (n : Z)
| PyStr (s : string)
| PyList (xs : list pyval)
| PyDict (d : gmap string pyval).

Abbreviation pydict := (gmap string pyval).

(** [bool(v)]: the truth value Python's [if v:] tests. *)
Definition truthy (v : pyval) : bool :=
  match v with
  | PyNone => false
  | PyBool b => b
  | PyInt n => negb (n =? 0)
  | PyStr s => negb (String.eqb s "")
  | PyList xs => negb (bool_decide (xs = []))
  | PyDict d => negb (bool_decide (d = ∅))
  end.

(** An argument declared [str = None]. *)
Definition truthy_str (s : option string) : bool :=
  match s with
  | None => false
  | Some s => negb (String.eqb s "")
  end.

(** ** Exceptions and outcomes *)

Inductive py_exception : Type :=
| ClusterConfigException (msg : string)
| NotEnoughArguments (msg : string)
| AttributeError
| TypeError
| ValueError
| KeyError
| IndexError
| OSError
| JSONDecodeError
| CollaboratorError (name : string)
| SystemExit (code : Z).

(** [except Exception] catches everything but [SystemExit], which derives
    from [BaseException] only. *)
Definition is_Exception (e : py_exception) : bool :=
  match e with
  | SystemExit _ => false
  | _ => true
  end.

(** The result of evaluating a piece of Python: a value, a raised
    exception, or [OutsideModel] where a builtin behaves in a way this
    development does not describe (see [update_item]). *)
Inductive outcome (A : Type) : Type :=
| Return (a : A)
| Raise (e : py_exception)
| OutsideModel.
Arguments Return {A} a.
Arguments Raise {A} e.
Arguments OutsideModel {A}.

Definition outcome_bind {A B} (m : outcome A) (k : A -> outcome B) : outcome B :=
  match m with
  | Return a => k a
  | Raise e => Raise e
  | OutsideModel => OutsideModel
  end.

Notation "'try!' x := m 'in' k" := (outcome_bind m (fun x => k))
  (at level 10, x name, m at level 100, k at level 200, only parsing).

(** ** Builtin operations on the values *)

Fixpoint str_contains (t s : string) : bool :=
  String.prefix t s ||
  match s with
  | EmptyString => false
  | String _ s' => str_contains t s'
  end.

(** [x == v] for [x] a string or [None]. *)
Definition py_eq_str (x : option string) (v : pyval) : bool :=
  match x, v with
  | None, PyNone => true
  | Some t, PyStr s => String.eqb t s
  | _, _ => false
  end.

(** [x in container] for [x] a string or [None]. *)
Definition py_in (x : option string) (container : pyval) : outcome bool :=
  match container with
  | PyDict d =>
      Return (match x with
              | Some t => bool_decide (is_Some (d !! t))
              | None => false
              end)
  | PyList xs => Return (existsb (py_eq_str x) xs)
  | PyStr s =>
      match x with
      | Some t => Return (str_contains t s)
      | None => Raise TypeError
      end
  | PyNone | PyBool _ | PyInt _ => Raise TypeError
  end.

(** [container[x]] for [x] a string or [None]. *)
Definition py_getitem (container : pyval) (x : option string) : outcome pyval :=
  match container with
  | PyDict d =>
      match x ≫= (d !!.) with
      | Some v => Return v
      | None => Raise KeyError
      end
  | _ => Raise TypeError
  end.

(** One item of a sequence handed to [d.update]: it must itself be a
    sequence of two elements, a key and a value. A list of two elements is
    taken apart; its key must be hashable, which lists and dictionaries are
    not. A string of two characters gives the first as key and the second
    as value. [None], booleans and integers are not sequences, and any
    other length is refused. Two shapes fall outside the string-keyed
    dictionaries used here: a pair whose key is [None], a boolean or an
    integer, and a dictionary of two keys, which is read in the order its
    keys were inserted. *)
Definition update_item (d : pydict) (item : pyval) : outcome pydict :=
  match item with
  | PyList [PyStr key; value] => Return (<[key := value]> d)
  | PyList [PyList _; _] | PyList [PyDict _; _] => Raise TypeError
  | PyList [_; _] => OutsideModel
  | PyList _ => Raise ValueError
  | PyStr (String key (String value EmptyString)) =>
      Return (<[String key EmptyString := PyStr (String value EmptyString)]> d)
  | PyStr _ => Raise ValueError
  | PyDict m => if bool_decide (size m = 2%nat) then OutsideModel else Raise ValueError
  | PyNone | PyBool _ | PyInt _ => Raise TypeError
  end.

(** The items are merged in order; the first one refused ends the call. *)
Fixpoint update_items (d : pydict) (items : list pyval) : outcome pydict :=
  match items with
  | [] => Return d
  | item :: rest =>
      try! d' := update_item d item in
      update_items d' rest
  end.

(** [d.update(other)] on a dictionary [d], giving the updated [d].
    A mapping is merged key by key, its values winning. A list is merged
    item by item, each a key/value pair. A string iterates to
    one-character items, which are not pairs, so only the empty string is
    accepted, and adds nothing. [None], booleans and integers are not
    iterable. *)
Definition dict_update (d : pydict) (other : pyval) : outcome pydict :=
  match other with
  | PyDict o => Return (o ∪ d)
  | PyList items => update_items d items
  | PyStr EmptyString => Return d
  | PyStr (String _ _) => Raise ValueError
  | PyNone | PyBool _ | PyInt _ => Raise TypeError
  end.

(** [s.split(sep)] for a one-character separator: never the empty list. *)
Fixpoint split (sep : ascii) (s : string) : list string :=
  match s with
  | EmptyString => [EmptyString]
  | String c rest =>
      if Ascii.eqb c sep then EmptyString :: split sep rest
      else
        match split sep rest with
        | segment :: segments => String c segment :: segments
        | [] => [String c EmptyString]
        end
  end.

(** Whether the character [c] occurs in [s]. *)
Fixpoint occurs (c : ascii) (s : string) : bool :=
  match s with
  | EmptyString => false
  | String c' rest => Ascii.eqb c' c || occurs c rest
  end.

(** ** The file system, as [read_job_cluster_config] sees it *)

Inductive fs_entry : Type :=
| Unreadable              (* a directory, no permission: [open] raises *)
| Malformed               (* a file that [json.load] rejects *)
| Document (doc : pyval). (* a file holding the JSON text of [doc] *)

(** [None] where [os.path.exists] answers [False]. *)
Definition filesystem := string -> option fs_entry.

(** ** common/clustermanager.py *)

Definition read_job_cluster_config
    (fs : filesystem) (path_to_config : string) (cluster_type : option string)
    : outcome pyval :=
  match fs path_to_config with
  | Some entry =>
      match entry with
      | Unreadable => Raise OSError
      | Malformed => Raise JSONDecodeError
      | Document (PyDict config) =>
          let base_config := default PyNone (config !! "base_config") in
          if truthy base_config then
            match config !! "cluster_configs" with
            | Some cluster_configs =>
                try! found := py_in cluster_type cluster_configs in
                if found then
                  match base_config with
                  | PyDict base =>
                      try! overlay := py_getitem cluster_configs cluster_type in
                      try! updated := dict_update base overlay in
                      Return (PyDict updated)
                  | _ => Raise AttributeError
                  end
                else
                  (* the exception object is built and dropped: no [raise] *)
                  Return base_config
            | None => Return base_config
            end
          else
            Raise (ClusterConfigException
                     ("Base config section is not found in file " +:+ path_to_config))
      | Document _ => Raise AttributeError
      end
  | None =>
      Raise (ClusterConfigException
               ("Cluster config by path " +:+ path_to_config +:+ " is not found"))
  end.

(** A file system holding one JSON document. *)
Definition single_file (path : string) (doc : pyval) : filesystem :=
  fun p => if String.eqb p path then Some (Document doc) else None.

(** ** cli/nuttercli.py: what the CLI exchanges with its collaborators *)

(** The two attributes of an execution result that the CLI reads:
    [exec_result.notebook_path] and [exec_result.notebook_result.exit_output]. *)
Record notebook_output : Type := { exit_output : option string }.
Record exec_result : Type :=
  { notebook_path : string; notebook_result : notebook_output }.

(** The keyword arguments of [self._nutter.run_tests(...)]. *)
Record run_tests_call : Type :=
  { rts_pattern : string;
    rts_cluster_id : option string;
    rts_cluster_conf : pyval;
    rts_timeout : Z;
    rts_max_parallel_tests : Z;
    rts_recursive : bool;
    rts_poll_wait_time : Z;
    rts_notebook_params : pyval }.

(** The four positional arguments of [self._nutter.run_test(...)]. *)
Record run_test_call : Type :=
  { rt_test_pattern : string;
    rt_cluster_id : option string;
    rt_timeout : Z;
    rt_poll_wait_time : Z }.

Inductive report_kind : Type := JUnit | Tags.

(** The modules the CLI imports and that are kept abstract: [common.api]
    (test-name convention, result parsing, the Nutter runner),
    [resultsvalidator], and the constants and naming of [reportsman].
    The runner and the validator may raise; the console views, the events
    processor and the report manager are taken to return. *)
Class Collaborators : Type :=
  { test_results : Type;
    is_valid_test_name : string -> bool;
    to_testresults : option string -> option test_results;
    nutter_run_tests : run_tests_call -> outcome (list exec_result);
    nutter_run_test : run_test_call -> outcome exec_result;
    validate : list exec_result -> outcome unit;
    JUNIT : Z;
    TAGS : Z;
    provider_name : report_kind -> string;
    report_file_name : report_kind -> string }.

(** The arguments of [NutterCLI.run]. [cluster_config] and
    [notebook_params] are Python values, [PyNone] when not given. *)
Record run_args : Type :=
  { test_pattern : string;
    cluster_id : option string;
    timeout : Z;
    junit_report : bool;
    tags_report : bool;
    max_parallel_tests : Z;
    recursive : bool;
    poll_wait_time : Z;
    notebook_params : pyval;
    cluster_conf_path : option string;
    cluster_type : option string;
    cluster_config : pyval }.

Section Cli.
Context `{C : Collaborators}.

(** What a run does that can be observed from outside. Diagnostic
    [logging.debug] lines are not recorded. *)
Inductive event : Type :=
| CallRunTests (call : run_tests_call)
| CallRunTest (call : run_test_call)
| EventsProcessorWait
| DisplayTestResults (results : list exec_result)
| Print (line : string)
| AddResult (path : string) (t_result : test_results)
| WriteReport (provider : report_kind) (file_name : string)
              (content : list (string * test_results))
| LogFatal (error : py_exception).

(** Code with effects: the events so far, and how it ended. *)
Definition io (A : Type) : Type := (list event * outcome A)%type.

Definition io_ret {A} (a : A) : io A := ([], Return a).

Definition io_bind {A B} (m : io A) (k : A -> io B) : io B :=
  match m with
  | (t, Return a) => let '(t', r) := k a in (t ++ t', r)
  | (t, Raise e) => (t, Raise e)
  | (t, OutsideModel) => (t, OutsideModel)
  end.

Definition emit (e : event) : io unit := ([e], Return tt).
Definition lift {A} (o : outcome A) : io A := ([], o).
Definition print (line : string) : io unit := emit (Print line).

(** [try: body] / [except Exception as error: handler error]. *)
Definition try_except {A} (body : io A) (handler : py_exception -> io A) : io A :=
  match body with
  | (t, Raise e) =>
      if is_Exception e then let '(t', r) := handler e in (t ++ t', r)
      else (t, Raise e)
  | _ => body
  end.

Notation "'do!' x := m 'in' k" := (io_bind m (fun x => k))
  (at level 10, x name, m at level 100, k at level 200, only parsing).
Notation "m ;;! k" := (io_bind m (fun _ => k))
  (at level 100, k at level 200, right associativity, only parsing).

(** *** The report writer manager *)

(** Modelled from the spec: [cli/reportsman.py] is not part of the sources.
    Section 4.3 has report kinds "zero or more of {JUnit, Tags}, combined as
    a bit-flag set", results handed over one by one, and "named output
    artifacts" produced from them: the manager holds the kinds whose flag
    is set in the selector and the results added so far, and [write]
    produces one named artifact per kind. *)
Record ReportWriterManager : Type :=
  { providers : list report_kind;
    added_results : list (string * test_results) }.

(** Modelled from the spec: the flag of a report kind, one of the two
    constants of the absent [ReportWriters]. *)
Definition flag_of (k : report_kind) : Z :=
  match k with
  | JUnit => JUNIT
  | Tags => TAGS
  end.

(** Modelled from the spec: [reports.get_report_writer_manager] is not in
    the sources; the selector is read as a bit-flag set. *)
Definition get_report_writer_manager (writers : Z) : ReportWriterManager :=
  {| providers := filter (fun k => Z.land writers (flag_of k) ≠ 0) [JUnit; Tags];
     added_results := [] |}.

(** Modelled from the spec: the methods of the absent manager that
    [_handle_reports] calls. *)
Definition has_providers (m : ReportWriterManager) : bool :=
  negb (bool_decide (providers m = [])).

(** Modelled from the spec: one name per selected kind. *)
Definition providers_names (m : ReportWriterManager) : list string :=
  provider_name <$> providers m.

(** Modelled from the spec: a result handed over is kept, in order. *)
Definition add_result (m : ReportWriterManager) (path : string) (t : test_results)
    : ReportWriterManager :=
  {| providers := providers m;
     added_results := added_results m ++ [(path, t)] |}.

(** Modelled from the spec: one named artifact per selected kind, each
    holding the results added so far; the names are returned. *)
Definition write (m : ReportWriterManager) : io (list string) :=
  ((fun k => WriteReport k (report_file_name k) (added_results m)) <$> providers m,
   Return (report_file_name <$> providers m)).

(** *** NutterCLI *)

(** The value of the local [writers] that [_get_report_writer_manager]
    hands to [reports.get_report_writer_manager]. *)
Definition writers (junit_report tags_report : bool) : Z :=
  let writers := 0 in
  let writers := if junit_report then JUNIT else writers in
  let writers := if tags_report then writers + TAGS else writers in
  writers.

Definition _get_report_writer_manager (junit_report tags_report : bool)
    : ReportWriterManager :=
  get_report_writer_manager (writers junit_report tags_report).

Definition tab : string := String (Ascii.ascii_of_nat 9) EmptyString.

Definition missing_output_line (path : string) : string :=
  tab +:+ "The output of " +:+ path +:+ " is missing or the format is invalid.".

(** The loop [for exec_result in exec_results] of [_handle_reports]. *)
Fixpoint add_exec_results (report_manager : ReportWriterManager)
    (exec_results : list exec_result) : io ReportWriterManager :=
  match exec_results with
  | [] => io_ret report_manager
  | exec_result :: rest =>
      match to_testresults (exit_output (notebook_result exec_result)) with
      | None =>
          print "Warning:" ;;!
          print (missing_output_line (notebook_path exec_result)) ;;!
          add_exec_results report_manager rest
      | Some t_result =>
          emit (AddResult (notebook_path exec_result) t_result) ;;!
          add_exec_results
            (add_result report_manager (notebook_path exec_result) t_result) rest
      end
  end.

(** A [for] loop whose body only prints. *)
Definition print_each (line : string -> string) (items : list string) : io unit :=
  ((fun x => Print (line x)) <$> items, Return tt).

Definition _handle_reports (report_manager : ReportWriterManager)
    (exec_results : list exec_result) : io unit :=
  if negb (has_providers report_manager) then io_ret tt
  else
    print_each (fun provider => "Writing " +:+ provider +:+ " report.")
               (providers_names report_manager) ;;!
    do! report_manager := add_exec_results report_manager exec_results in
    do! file_names := write report_manager in
    print_each (fun file_name => "File " +:+ file_name +:+ " written") file_names.

Definition _handle_results (results : list exec_result)
    (junit_report tags_report : bool) : io unit :=
  emit (DisplayTestResults results) ;;!
  let report_man := _get_report_writer_manager junit_report tags_report in
  _handle_reports report_man results ;;!
  lift (validate results).

(** [False] for a test name, [True] for anything else. The last branch is
    the call of [logging.Fatal], a name the [logging] module does not have. *)
Definition _is_a_test_pattern (pattern : string) : outcome bool :=
  let segments := split "/"%char pattern in
  if (0 <? length segments)%nat then
    match segments !! (length segments - 1)%nat with
    | Some search_pattern =>
        if is_valid_test_name search_pattern then Return false
        else Return true
    | None => Raise IndexError
    end
  else Raise AttributeError.

Definition call_run_tests (call : run_tests_call) : io (list exec_result) :=
  ([CallRunTests call], nutter_run_tests call).

Definition call_run_test (call : run_test_call) : io exec_result :=
  ([CallRunTest call], nutter_run_test call).

(** The local [cluster_conf] of [run]: the inline [cluster_config] when
    one is given, else the configuration read from [cluster_conf_path]
    when that is given, else [None]. *)
Definition cluster_conf (fs : filesystem) (a : run_args) : outcome pyval :=
  match cluster_config a with
  | PyNone =>
      if truthy_str (cluster_conf_path a) then
        read_job_cluster_config fs (default "" (cluster_conf_path a))
                                (cluster_type a)
      else Return PyNone
  | _ => Return (cluster_config a)
  end.

(** The handler of [run]: [self._logger.fatal(error)], then [exit(1)]. *)
Definition fatal_exit (error : py_exception) : io unit :=
  emit (LogFatal error) ;;! lift (Raise (SystemExit 1)).

(** The test of the first line of [run]: no cluster selector at all. *)
Definition no_cluster_selector (a : run_args) : bool :=
  negb (truthy_str (cluster_conf_path a))
  && negb (truthy_str (cluster_id a))
  && negb (truthy (cluster_config a)).

Definition run (fs : filesystem) (a : run_args) : io unit :=
  try_except
    ((if no_cluster_selector a
      then lift (Raise (NotEnoughArguments
             "cluster_conf_path or cluster_id or cluster_config must be provided"))
      else io_ret tt) ;;!
     do! cluster_conf := lift (cluster_conf fs a) in
     do! is_pattern := lift (_is_a_test_pattern (test_pattern a)) in
     if is_pattern then
       do! results := call_run_tests
         {| rts_pattern := test_pattern a;
            rts_cluster_id := cluster_id a;
            rts_cluster_conf := cluster_conf;
            rts_timeout := timeout a;
            rts_max_parallel_tests := max_parallel_tests a;
            rts_recursive := recursive a;
            rts_poll_wait_time := poll_wait_time a;
            rts_notebook_params := notebook_params a |} in
       emit EventsProcessorWait ;;!
       _handle_results results (junit_report a) (tags_report a)
     else
       do! result := call_run_test
         {| rt_test_pattern := test_pattern a;
            rt_cluster_id := cluster_id a;
            rt_timeout := timeout a;
            rt_poll_wait_time := poll_wait_time a |} in
       _handle_results [result] (junit_report a) (tags_report a))
    fatal_exit.

(** *** Reading a run *)

Definition is_dispatch (e : event) : bool :=
  match e with
  | CallRunTests _ | CallRunTest _ => true
  | _ => false
  end.

(** [name] is what follows the last ['/'] of [pattern], or all of
    [pattern] when it has no ['/']. *)
Definition is_last_segment (pattern name : string) : Prop :=
  occurs "/" name = false /\
  (pattern = name \/ exists before, pattern = before +:+ String "/" name).

(** Whether a test was handed to the runner. *)
Definition dispatched {A} (r : io A) : bool := existsb is_dispatch r.1.

Definition calls_run_test (t : list event) : bool :=
  existsb (fun e => match e with CallRunTest _ => true | _ => false end) t.

Definition calls_run_tests (t : list event) : bool :=
  existsb (fun e => match e with CallRunTests _ => true | _ => false end) t.

Definition waits_for_events (t : list event) : bool :=
  existsb (fun e => match e with EventsProcessorWait => true | _ => false end) t.

(** Events that neither reach the runner nor wait for its events. *)
Definition is_local (e : event) : bool :=
  match e with
  | CallRunTests _ | CallRunTest _ | EventsProcessorWait => false
  | _ => true
  end.

(** The status the process ends with: [exit(code)] gives [code], an
    exception that nothing caught gives 1, and a [run] that returns lets
    [main] end normally. *)
Definition exit_status {A} (r : io A) : option Z :=
  match r.2 with
  | Return _ => Some 0
  | Raise (SystemExit code) => Some code
  | Raise _ => Some 1
  | OutsideModel => None
  end.

(** The lines printed, in order. *)
Definition printed_lines (t : list event) : list string :=
  t ≫= (fun e => match e with Print line => [line] | _ => [] end).

(** The results handed to [report_manager.add_result], in order. *)
Definition reported (t : list event) : list (string * test_results) :=
  t ≫= (fun e => match e with AddResult path r => [(path, r)] | _ => [] end).

(** The results whose exit output parses, with what it parses to. *)
Definition parsed_results (exec_results : list exec_result)
    : list (string * test_results) :=
  exec_results ≫= (fun r =>
    match to_testresults (exit_output (notebook_result r)) with
    | Some t_result => [(notebook_path r, t_result)]
    | None => []
    end).

(** The results whose exit output is missing or does not parse. *)
Definition unparsed_results (exec_results : list exec_result) : list exec_result :=
  filter (fun r => to_testresults (exit_output (notebook_result r)) = None)
         exec_results.

(** What one turn of the loop of [_handle_reports] does. *)
Definition loop_events (exec_result : exec_result) : list event :=
  match to_testresults (exit_output (notebook_result exec_result)) with
  | None => [Print "Warning:"; Print (missing_output_line (notebook_path exec_result))]
  | Some t_result => [AddResult (notebook_path exec_result) t_result]
  end.

(** The artifacts written, in order, each with its content. *)
Definition written (t : list event)
    : list (string * list (string * test_results)) :=
  t ≫= (fun e => match e with
                  | WriteReport _ file_name content => [(file_name, content)]
                  | _ => []
                  end).
End Cli.

Notation "'do!' x := m 'in' k" := (io_bind m (fun x => k))
  (at level 10, x name, m at level 100, k at level 200, only parsing).
Notation "m ;;! k" := (io_bind m (fun _ => k))
  (at level 100, k at level 200, right associativity, only parsing).

(** ** cli/cli.py *)

(** The process environment: [os.environ.get]. *)
Definition environment := string -> option string.

Definition __version__ : string := "0.1.36".

Definition BUILD_NUMBER_ENV_VAR : string := "NUTTER_BUILD_NUMBER".

Definition get_cli_version (environ : environment) : string :=
  let build_number := environ BUILD_NUMBER_ENV_VAR in
  if truthy_str build_number then
    __version__ +:+ "." +:+ default "" build_number
  else __version__.

(** ** cli/nuttercli.py: the header, the constructor and [list] *)

Definition newline : string := String (Ascii.ascii_of_nat 10) EmptyString.

(** [s * n] on strings. *)
Fixpoint str_times (s : string) (n : nat) : string :=
  match n with
  | O => EmptyString
  | S n' => s +:+ str_times s n'
  end.

Definition get_cli_header (environ : environment) : string :=
  let header := "Nutter Version " +:+ get_cli_version environ +:+ newline in
  let header := header +:+ str_times "+" 50 in
  let header := header +:+ newline in
  header.

Definition _get_version_label (environ : environment) : string :=
  let version := get_cli_version environ in
  "Nutter Version " +:+ version.

(** The text of [_print_config_error_and_exit]. *)
Definition config_error_message : string :=
  " Invalid configuration." +:+ newline +:+ newline
  +:+ str_times " " 18 +:+ "DATABRICKS_HOST and DATABRICKS_TOKEN" +:+ newline
  +:+ str_times " " 19 +:+ "environment variables are not set ".

(** [except InvalidConfigurationException]: the class comes from
    [common.apiclient], which is not in the sources; it is carried as the
    collaborator error of that name. *)
Definition InvalidConfigurationException : py_exception :=
  CollaboratorError "InvalidConfigurationException".

Definition is_InvalidConfigurationException (e : py_exception) : bool :=
  match e with
  | CollaboratorError name => String.eqb name "InvalidConfigurationException"
  | _ => false
  end.

(** What the constructor and [list] lean on: building the runner
    ([ConsoleEventHandler(debug)], then [api.get_nutter]), listing the
    tests of a path, [logging.basicConfig], which opens the log file it
    is given and may fail to, and the clock, already formatted as
    [%Y.%m.%d.%H%M%S%f]. *)
Class Shell : Type :=
  { listing : Type;
    new_nutter : bool -> outcome unit;
    nutter_list_tests : string -> bool -> outcome listing;
    basic_config : option string -> outcome unit;
    utcnow_stamp : string }.

Section ShellModel.
Context `{S : Shell}.

(** What the constructor and [list] do that can be observed. *)
Inductive shell_event : Type :=
| Console (line : string)
| BasicConfig (filename : option string)
| GetNutter (debug : bool)
| CallListTests (path : string) (recursive : bool)
| ListEventsProcessorWait
| DisplayListResults (results : listing)
| Fatal (error : py_exception).

Definition act (A : Type) : Type := (list shell_event * outcome A)%type.

Definition act_ret {A} (a : A) : act A := ([], Return a).

Definition act_bind {A B} (m : act A) (k : A -> act B) : act B :=
  match m with
  | (t, Return a) => let '(t', r) := k a in (t ++ t', r)
  | (t, Raise e) => (t, Raise e)
  | (t, OutsideModel) => (t, OutsideModel)
  end.

Definition say (e : shell_event) : act unit := ([e], Return tt).
Definition exit {A} (code : Z) : act A := ([], Raise (SystemExit code)).

Notation "'let!' x := m 'in' k" := (act_bind m (fun x => k))
  (at level 10, x name, m at level 100, k at level 200, only parsing).
Notation "m >>! k" := (act_bind m (fun _ => k))
  (at level 100, k at level 200, right associativity, only parsing).

(** [try: body] / [except <class> as error: handler error], for the
    exceptions that [caught] selects. *)
Definition try_catch {A} (caught : py_exception -> bool) (body : act A)
    (handler : py_exception -> act A) : act A :=
  match body with
  | (t, Raise e) =>
      if caught e then let '(t', r) := handler e in (t ++ t', r)
      else (t, Raise e)
  | _ => body
  end.

Definition _handle_show_version (environ : environment) (version : bool) : act unit :=
  if negb version then act_ret tt
  else
    say (Console (_get_version_label environ)) >>!
    exit 0.

Definition _set_debugging (debug log_to_file : bool) : act unit :=
  if debug then
    let log_name := None in
    let log_name :=
      if log_to_file then Some ("nutter-exec-" +:+ utcnow_stamp +:+ ".log")
      else log_name in
    ([BasicConfig log_name], basic_config log_name)
  else act_ret tt.

Definition _print_cli_header (environ : environment) : act unit :=
  say (Console (get_cli_header environ)).

Definition _print_config_error_and_exit : act unit :=
  say (Console config_error_message) >>!
  exit 1.

Definition _set_nutter (debug : bool) : act unit :=
  try_catch is_InvalidConfigurationException
    ([GetNutter debug], new_nutter debug)
    (fun ex => _print_config_error_and_exit).

(** [NutterCLI.__init__]. *)
Definition __init__ (environ : environment) (debug log_to_file version : bool)
    : act unit :=
  _handle_show_version environ version >>!
  _set_debugging debug log_to_file >>!
  _print_cli_header environ >>!
  _set_nutter debug.

(** [NutterCLI.list]. *)
Definition list_ (path : string) (recursive : bool) : act unit :=
  try_catch is_Exception
    (let! results := ([CallListTests path recursive],
                     nutter_list_tests path recursive) in
     say ListEventsProcessorWait >>!
     say (DisplayListResults results))
    (fun error => say (Fatal error) >>! exit 1).
End ShellModel.

(** ** Further readings of a trace *)

Section Readings.
Context `{C : Collaborators}.

(** The number of calls of the runner in a trace. *)
Definition dispatch_count (t : list event) : nat :=
  length (filter (fun e => is_dispatch e = true) t).

(** The number of lines ["Warning:"] printed in a trace. *)
Definition warning_count (t : list event) : nat :=
  length (filter (fun line => line = "Warning:") (printed_lines t)).

(** How [run] ends when its body ends as [o]: an [Exception] becomes
    [exit(1)], everything else goes through. *)
Definition after_handler {A} (o : outcome A) : outcome A :=
  match o with
  | Raise e => if is_Exception e then Raise (SystemExit 1) else Raise e
  | _ => o
  end.
End Readings.

(** ** A concrete setting, for running the definitions *)

(** Stand-ins for the collaborators: a test name starts with [test_], an
    exit output parses when it starts with an opening brace, the runner
    answers with fixed results and the validator accepts them. *)
Definition passing_result (path : string) : exec_result :=
  {| notebook_path := path;
     notebook_result := {| exit_output := Some "{results}" |} |}.

Definition garbled_result (path : string) : exec_result :=
  {| notebook_path := path;
     notebook_result := {| exit_output := Some "Traceback" |} |}.

Definition sample_collaborators : Collaborators :=
  {| test_results := string;
     is_valid_test_name := String.prefix "test_";
     to_testresults := fun exit_output =>
       match exit_output with
       | Some payload => if String.prefix "{" payload then Some payload else None
       | None => None
       end;
     nutter_run_tests := fun call =>
       Return [passing_result (rts_pattern call +:+ "test_a");
               garbled_result (rts_pattern call +:+ "test_b")];
     nutter_run_test := fun call => Return (passing_result (rt_test_pattern call));
     validate := fun _ => Return tt;
     JUNIT := 1;
     TAGS := 2;
     provider_name := fun k =>
       match k with JUnit => "JunitXMLReportWriter" | Tags => "TagsReportWriter" end;
     report_file_name := fun k =>
       match k with JUnit => "test-results.xml" | Tags => "test-tags.csv" end |}.

(** Stand-ins for the shell: a runner that can be built, and one whose
    configuration is missing. *)
Definition sample_shell : Shell :=
  {| listing := list string;
     new_nutter := fun _ => Return tt;
     nutter_list_tests := fun path _ => Return [path +:+ "test_a"; path +:+ "test_b"];
     basic_config := fun _ => Return tt;
     utcnow_stamp := "2020.01.31.235959000000" |}.

Definition unconfigured_shell : Shell :=
  {| listing := list string;
     new_nutter := fun _ => Raise InvalidConfigurationException;
     nutter_list_tests := fun _ _ => Raise (CollaboratorError "HTTPError");
     basic_config := fun filename =>
       match filename with
       | Some _ => Raise OSError
       | None => Return tt
       end;
     utcnow_stamp := "2020.01.31.235959000000" |}.

(** An environment with a build number, and one without. *)
Definition build_environ : environment :=
  fun name => if String.eqb name "NUTTER_BUILD_NUMBER" then Some "42" else None.

Definition plain_environ : environment := fun _ => None.

(** Collaborators that fail: the pattern runner raises, the single-test
    runner answers with a result that does not parse, and the validator
    rejects what it is given. *)
Definition strict_collaborators : Collaborators :=
  {| test_results := string;
     is_valid_test_name := String.prefix "test_";
     to_testresults := fun _ => None;
     nutter_run_tests := fun _ => Raise (CollaboratorError "HTTPError");
     nutter_run_test := fun call => Return (garbled_result (rt_test_pattern call));
     validate := fun _ => Raise (CollaboratorError "TestCaseFailureException");
     JUNIT := 1;
     TAGS := 2;
     provider_name := fun _ => "writer";
     report_file_name := fun _ => "report" |}.

(** A configuration file whose entry for ["gpu"] is [null], and one whose
    entry repeats a setting of the base. *)
Definition null_overlay_document : pyval :=
  PyDict {[ "base_config" := PyDict {[ "a" := PyInt 1; "b" := PyInt 2 ]};
            "cluster_configs" := PyDict {[ "gpu" := PyNone ]} ]}.

Definition repeating_overlay_document : pyval :=
  PyDict {[ "base_config" := PyDict {[ "a" := PyInt 1; "b" := PyInt 2 ]};
            "cluster_configs" := PyDict {[ "gpu" := PyDict {[ "b" := PyInt 2 ]} ]} ]}.

(** The configuration file of the specification's example. *)
Definition gpu_document : pyval :=
  PyDict {[ "base_config" := PyDict {[ "a" := PyInt 1; "b" := PyInt 2 ]};
            "cluster_configs" := PyDict {[ "gpu" := PyDict {[ "b" := PyInt 3 ]} ]} ]}.

Definition sample_args : run_args :=
  {| test_pattern := "/Shared/etl/test_load";
     cluster_id := Some "0123-456789-abc";
     timeout := 120;
     junit_report := false;
     tags_report := false;
     max_parallel_tests := 1;
     recursive := false;
     poll_wait_time := 5;
     notebook_params := PyNone;
     cluster_conf_path := None;
     cluster_type := None;
     cluster_config := PyNone |}.

(** The same invocation with an inline cluster definition and notebook
    parameters, on a given pattern. *)
Definition configured_args (pattern : string) : run_args :=
  {| test_pattern := pattern;
     cluster_id := Some "0123-456789-abc";
     timeout := 120;
     junit_report := false;
     tags_report := false;
     max_parallel_tests := 1;
     recursive := false;
     poll_wait_time := 5;
     notebook_params := PyDict {[ "env" := PyStr "dev" ]};
     cluster_conf_path := None;
     cluster_type := None;
     cluster_config := PyDict {[ "num_workers" := PyInt 2 ]} |}.

(** An invocation that names a configuration file and nothing else. *)
Definition file_args (pattern path : string) (type : option string) : run_args :=
  {| test_pattern := pattern;
     cluster_id := None;
     timeout := 120;
     junit_report := false;
     tags_report := false;
     max_parallel_tests := 1;
     recursive := false;
     poll_wait_time := 5;
     notebook_params := PyNone;
     cluster_conf_path := Some path;
     cluster_type := type;
     cluster_config := PyNone |}.

(** An invocation with no cluster selector. *)
Definition bare_args : run_args :=
  {| test_pattern := "/Shared/etl/test_load";
     cluster_id := None;
     timeout := 120;
     junit_report := true;
     tags_report := false;
     max_parallel_tests := 1;
     recursive := false;
     poll_wait_time := 5;
     notebook_params := PyNone;
     cluster_conf_path := None;
     cluster_type := None;
     cluster_config := PyDict ∅ |}.

(** * Properties *)

(** ** Reading the cluster configuration *)

Lemma truthy_nonempty_dict (d : pydict) : d ≠ ∅ -> truthy (PyDict d) = true.
Proof.
  intros Hd. unfold truthy. now rewrite bool_decide_eq_false_2.
Qed.

Lemma lookup_overlay (overlay base : pydict) (key : string) :
  (overlay ∪ base) !! key =
  match overlay !! key with
  | Some v => Some v
  | None => base !! key
  end.
Proof.
  rewrite lookup_union. destruct (overlay !! key), (base !! key); reflexivity.
Qed.

(** What the function does once the file is known to hold a JSON object
    with a truthy [base_config] and a [cluster_configs] dictionary. *)
Lemma read_with_cluster_configs fs path cluster_type (config cluster_configs : pydict) base_config :
  fs path = Some (Document (PyDict config)) ->
  config !! "base_config" = Some base_config ->
  truthy base_config = true ->
  config !! "cluster_configs" = Some (PyDict cluster_configs) ->
  read_job_cluster_config fs path cluster_type =
  match cluster_type ≫= (cluster_configs !!.) with
  | Some overlay =>
      match base_config with
      | PyDict base =>
          try! updated := dict_update base overlay in Return (PyDict updated)
      | _ => Raise AttributeError
      end
  | None => Return base_config
  end.
Proof.
  intros Hfs Hbase Htruthy Hconfigs.
  unfold read_job_cluster_config. rewrite Hfs, Hbase. simpl.
  rewrite Htruthy, Hconfigs. simpl.
  destruct cluster_type as [t|]; simpl; [|reflexivity].
  destruct (cluster_configs !! t) as [overlay|] eqn:Ht.
  - rewrite bool_decide_eq_true_2 by eauto.
    destruct base_config; reflexivity.
  - rewrite bool_decide_eq_false_2; [reflexivity|].
    intros [? ?]; discriminate.
Qed.

(** C1, as the code has it: with a non-empty [base_config] object and an
    entry of [cluster_configs] for the requested type that is itself an
    object, the result is the base configuration updated with the entry:
    every key of the entry carries the entry's value, every other key the
    base's. *)
Theorem read_job_cluster_config_overlays
    fs path (cluster_type : string) (config base cluster_configs overlay : pydict) :
  fs path = Some (Document (PyDict config)) ->
  config !! "base_config" = Some (PyDict base) ->
  base ≠ ∅ ->
  config !! "cluster_configs" = Some (PyDict cluster_configs) ->
  cluster_configs !! cluster_type = Some (PyDict overlay) ->
  read_job_cluster_config fs path (Some cluster_type) = Return (PyDict (overlay ∪ base))
  /\ forall key,
       (overlay ∪ base) !! key =
       match overlay !! key with
       | Some v => Some v
       | None => base !! key
       end.
Proof.
  intros Hfs Hbase Hne Hconfigs Hentry. split; [|apply lookup_overlay].
  rewrite (read_with_cluster_configs _ _ _ _ _ _ Hfs Hbase
             (truthy_nonempty_dict _ Hne) Hconfigs).
  simpl. now rewrite Hentry.
Qed.

(** The example of the specification: base [{"a":1,"b":2}], overlay
    [{"b":3}] under ["gpu"], resolved to [{"a":1,"b":3}]. *)
Lemma read_job_cluster_config_overlays_gpu :
  read_job_cluster_config (single_file "conf.json" gpu_document) "conf.json" (Some "gpu")
  = Return (PyDict {[ "a" := PyInt 1; "b" := PyInt 3 ]}).
Proof.
  destruct (read_job_cluster_config_overlays
              (single_file "conf.json" gpu_document) "conf.json" "gpu"
              {[ "base_config" := PyDict {[ "a" := PyInt 1; "b" := PyInt 2 ]};
                 "cluster_configs" := PyDict {[ "gpu" := PyDict {[ "b" := PyInt 3 ]} ]} ]}
              {[ "a" := PyInt 1; "b" := PyInt 2 ]}
              {[ "gpu" := PyDict {[ "b" := PyInt 3 ]} ]}
              {[ "b" := PyInt 3 ]}) as [Hread _].
  - reflexivity.
  - reflexivity.
  - intros Hempty. apply (f_equal (fun d => d !! "a")) in Hempty. discriminate Hempty.
  - reflexivity.
  - reflexivity.
  - rewrite Hread. vm_compute. reflexivity.
Defined.

(** C1 as stated fails on an empty [base_config] object: [if base_config:]
    takes it for a missing section. *)
Lemma read_job_cluster_config_empty_base_raises :
  read_job_cluster_config
    (single_file "conf.json"
       (PyDict {[ "base_config" := PyDict ∅;
                  "cluster_configs" := PyDict {[ "gpu" := PyDict {[ "b" := PyInt 3 ]} ]} ]}))
    "conf.json" (Some "gpu")
  = Raise (ClusterConfigException "Base config section is not found in file conf.json").
Proof. vm_compute. reflexivity. Qed.

(** Without [raise], the branch for an unknown cluster type falls through
    to [cluster_config = base_config]. *)
Lemma read_unknown_type_returns_base
    fs path cluster_type (config cluster_configs : pydict) base_config :
  fs path = Some (Document (PyDict config)) ->
  config !! "base_config" = Some base_config ->
  truthy base_config = true ->
  config !! "cluster_configs" = Some (PyDict cluster_configs) ->
  cluster_type ≫= (cluster_configs !!.) = None ->
  read_job_cluster_config fs path cluster_type = Return base_config.
Proof.
  intros Hfs Hbase Htruthy Hconfigs Hunknown.
  rewrite (read_with_cluster_configs _ _ _ _ _ _ Hfs Hbase Htruthy Hconfigs).
  now rewrite Hunknown.
Qed.

(** C2, on the code: asking the specification's example file for the
    type ["cpu"], which [cluster_configs] does not have, raises nothing
    and returns the base configuration without any overlay; a run on that
    file hands this configuration to [run_tests]. *)
Theorem read_job_cluster_config_unknown_type_not_raised :
  read_job_cluster_config (single_file "conf.json" gpu_document) "conf.json" (Some "cpu")
  = Return (PyDict {[ "a" := PyInt 1; "b" := PyInt 2 ]})
  /\ (run (C := sample_collaborators) (single_file "conf.json" gpu_document)
          (file_args "/Shared/etl/" "conf.json" (Some "cpu"))).1 !! 0%nat
     = Some (CallRunTests
               {| rts_pattern := "/Shared/etl/";
                  rts_cluster_id := None;
                  rts_cluster_conf := PyDict {[ "a" := PyInt 1; "b" := PyInt 2 ]};
                  rts_timeout := 120;
                  rts_max_parallel_tests := 1;
                  rts_recursive := false;
                  rts_poll_wait_time := 5;
                  rts_notebook_params := PyNone |}).
Proof. split; vm_compute; reflexivity. Qed.

(** C10, as the code has it: a non-empty [base_config] object in a file
    with no [cluster_configs] key is returned as it is, whatever the
    cluster type. *)
Theorem read_job_cluster_config_base_only
    fs path (cluster_type : option string) (config base : pydict) :
  fs path = Some (Document (PyDict config)) ->
  config !! "base_config" = Some (PyDict base) ->
  base ≠ ∅ ->
  config !! "cluster_configs" = None ->
  read_job_cluster_config fs path cluster_type = Return (PyDict base).
Proof.
  intros Hfs Hbase Hne Hnone.
  unfold read_job_cluster_config. rewrite Hfs, Hbase. simpl.
  rewrite bool_decide_eq_false_2 by assumption. simpl.
  now rewrite Hnone.
Qed.

Lemma read_job_cluster_config_base_only_sample :
  read_job_cluster_config
    (single_file "conf.json" (PyDict {[ "base_config" := PyDict {[ "a" := PyInt 1 ]} ]}))
    "conf.json" (Some "gpu")
  = Return (PyDict {[ "a" := PyInt 1 ]}).
Proof.
  apply (read_job_cluster_config_base_only _ _ _
           {[ "base_config" := PyDict {[ "a" := PyInt 1 ]} ]}).
  - reflexivity.
  - reflexivity.
  - intros Hempty. apply (f_equal (fun d => d !! "a")) in Hempty. discriminate Hempty.
  - reflexivity.
Defined.

(** C10 as stated fails on an empty [base_config] object, which the
    function reports as a missing section. *)
Lemma read_job_cluster_config_empty_base_only_raises :
  read_job_cluster_config
    (single_file "conf.json" (PyDict {[ "base_config" := PyDict ∅ ]}))
    "conf.json" None
  = Raise (ClusterConfigException "Base config section is not found in file conf.json").
Proof. vm_compute. reflexivity. Qed.

(** ** The command-line front end *)

Section CliProperties.
Context `{C : Collaborators}.

(** *** Selecting the report writers *)

(** C7: the selector handed to [reports.get_report_writer_manager] is 0,
    [JUNIT], [TAGS] or [JUNIT + TAGS], according to the two flags. *)
Theorem writers_additive :
  writers false false = 0
  /\ writers true false = JUNIT
  /\ writers false true = TAGS
  /\ writers true true = JUNIT + TAGS
  /\ forall junit_report tags_report,
       _get_report_writer_manager junit_report tags_report
       = get_report_writer_manager
           ((if junit_report then JUNIT else 0) + (if tags_report then TAGS else 0)).
Proof.
  unfold _get_report_writer_manager, writers.
  repeat split; try reflexivity.
  intros [] []; f_equal; lia.
Qed.

(** *** Traces *)

Lemma io_bind_trace {A B} (m : io A) (k : A -> io B) :
  (io_bind m k).1 =
  m.1 ++ match m.2 with
         | Return a => (k a).1
         | _ => []
         end.
Proof.
  destruct m as [t [a|e|]]; simpl; rewrite ?app_nil_r; try reflexivity.
  now destruct (k a).
Qed.

Lemma try_except_trace {A} (body : io A) (handler : py_exception -> io A) :
  (try_except body handler).1 =
  body.1 ++ match body.2 with
            | Raise e => if is_Exception e then (handler e).1 else []
            | _ => []
            end.
Proof.
  destruct body as [t [a|e|]]; simpl; rewrite ?app_nil_r; try reflexivity.
  destruct (is_Exception e); simpl; rewrite ?app_nil_r; try reflexivity.
  now destruct (handler e).
Qed.

(** The loop of [_handle_reports] in closed form: one [add_result] per
    parsed result, two printed lines per other result, and a manager that
    has received exactly the parsed results. *)
Lemma add_exec_results_closed report_manager exec_results :
  add_exec_results report_manager exec_results =
  (exec_results ≫= loop_events,
   Return {| providers := providers report_manager;
             added_results := added_results report_manager
                              ++ parsed_results exec_results |}).
Proof.
  revert report_manager.
  induction exec_results as [|r rest IH]; intros report_manager; simpl.
  - unfold io_ret, parsed_results. simpl. rewrite app_nil_r.
    now destruct report_manager.
  - unfold loop_events at 1, parsed_results. simpl.
    destruct (to_testresults (exit_output (notebook_result r))) as [t|]; simpl.
    + rewrite IH. simpl. unfold parsed_results.
      now rewrite <- app_assoc.
    + rewrite IH. reflexivity.
Qed.

Lemma reported_loop exec_results :
  reported (exec_results ≫= loop_events) = parsed_results exec_results.
Proof.
  unfold reported, parsed_results.
  induction exec_results as [|r rest IH]; [reflexivity|].
  rewrite !bind_cons, bind_app, IH. unfold loop_events.
  now destruct (to_testresults (exit_output (notebook_result r))).
Qed.

Lemma printed_loop exec_results :
  printed_lines (exec_results ≫= loop_events) =
  unparsed_results exec_results ≫= (fun r =>
    ["Warning:"; missing_output_line (notebook_path r)]).
Proof.
  unfold printed_lines, unparsed_results.
  induction exec_results as [|r rest IH]; [reflexivity|].
  rewrite bind_cons, bind_app, IH, filter_cons. unfold loop_events.
  destruct (to_testresults (exit_output (notebook_result r))) eqn:Hparse.
  - rewrite decide_False by discriminate. reflexivity.
  - rewrite decide_True by reflexivity. reflexivity.
Qed.

Lemma written_loop exec_results : written (exec_results ≫= loop_events) = [].
Proof.
  unfold written.
  induction exec_results as [|r rest IH]; [reflexivity|].
  rewrite bind_cons, bind_app, IH, app_nil_r. unfold loop_events.
  now destruct (to_testresults (exit_output (notebook_result r))).
Qed.

(** *** Reports *)

Lemma handle_reports_closed report_manager exec_results :
  has_providers report_manager = true ->
  _handle_reports report_manager exec_results =
  (((fun name => Print ("Writing " +:+ name +:+ " report."))
      <$> providers_names report_manager)
   ++ (exec_results ≫= loop_events)
   ++ ((fun k => WriteReport k (report_file_name k)
                   (added_results report_manager ++ parsed_results exec_results))
         <$> providers report_manager)
   ++ ((fun file_name => Print ("File " +:+ file_name +:+ " written"))
         <$> (report_file_name <$> providers report_manager)),
   Return tt).
Proof.
  intros Hproviders. unfold _handle_reports. rewrite Hproviders. simpl.
  rewrite add_exec_results_closed. reflexivity.
Qed.

Lemma reported_app (t1 t2 : list event) : reported (t1 ++ t2) = reported t1 ++ reported t2.
Proof. apply bind_app. Qed.

Lemma printed_app (t1 t2 : list event) :
  printed_lines (t1 ++ t2) = printed_lines t1 ++ printed_lines t2.
Proof. apply bind_app. Qed.

Lemma written_app (t1 t2 : list event) : written (t1 ++ t2) = written t1 ++ written t2.
Proof. apply bind_app. Qed.

Lemma printed_prints (line : string -> string) (items : list string) :
  printed_lines ((fun x => Print (line x)) <$> items) = line <$> items.
Proof.
  unfold printed_lines. induction items as [|x items IH]; [reflexivity|].
  rewrite !fmap_cons, bind_cons, IH. reflexivity.
Qed.

Lemma reported_prints (line : string -> string) (items : list string) :
  reported ((fun x => Print (line x)) <$> items) = [].
Proof.
  unfold reported. induction items as [|x items IH]; [reflexivity|].
  rewrite fmap_cons, bind_cons, IH. reflexivity.
Qed.

Lemma written_prints (line : string -> string) (items : list string) :
  written ((fun x => Print (line x)) <$> items) = [].
Proof.
  unfold written. induction items as [|x items IH]; [reflexivity|].
  rewrite fmap_cons, bind_cons, IH. reflexivity.
Qed.

Lemma read_writes content (kinds : list report_kind) :
  let t := (fun k => WriteReport k (report_file_name k) content) <$> kinds in
  printed_lines t = [] /\ reported t = []
  /\ written t = (fun k => (report_file_name k, content)) <$> kinds.
Proof.
  unfold printed_lines, reported, written. simpl.
  induction kinds as [|k kinds (IH1 & IH2 & IH3)]; [now repeat split|].
  rewrite !fmap_cons, !bind_cons, IH1, IH2, IH3. now repeat split.
Qed.

(** C5: with neither report selected the manager has no provider, and
    handling the reports of any batch of results does nothing at all: no
    result is added, nothing is written, nothing is printed. *)
Theorem no_report_selected_no_op (exec_results : list exec_result) :
  has_providers (_get_report_writer_manager false false) = false
  /\ _handle_reports (_get_report_writer_manager false false) exec_results
     = ([], Return tt)
  /\ reported (_handle_results exec_results false false).1 = []
  /\ written (_handle_results exec_results false false).1 = [].
Proof.
  assert (Hnone : _get_report_writer_manager false false
                  = {| providers := []; added_results := [] |}).
  { reflexivity. }
  unfold _handle_results. rewrite Hnone.
  repeat split; destruct (validate exec_results); reflexivity.
Qed.

(** C6: with at least one provider, every result whose exit output parses
    is added to the report, in order, and is part of what each provider
    writes; every other result is skipped, and for each of them, in
    order, exactly two lines are printed: ["Warning:"], then a tab and
    ["The output of <notebook path> is missing or the format is invalid."].
    The report manager is the one modelled above, whose [add_result] and
    [write] return. *)
Theorem unparsable_results_skipped_with_warning
    (report_manager : ReportWriterManager) (exec_results : list exec_result) :
  has_providers report_manager = true ->
  let r := _handle_reports report_manager exec_results in
  reported r.1 = parsed_results exec_results
  /\ printed_lines r.1 =
       ((fun name => "Writing " +:+ name +:+ " report.")
          <$> providers_names report_manager)
       ++ (unparsed_results exec_results ≫= (fun exec_result =>
             ["Warning:";
              String (Ascii.ascii_of_nat 9) "The output of "
              +:+ notebook_path exec_result
              +:+ " is missing or the format is invalid."]))
       ++ ((fun file_name => "File " +:+ file_name +:+ " written")
             <$> (report_file_name <$> providers report_manager))
  /\ written r.1 =
       (fun k => (report_file_name k,
                  added_results report_manager ++ parsed_results exec_results))
         <$> providers report_manager.
Proof.
  intros Hproviders r. subst r. rewrite (handle_reports_closed _ _ Hproviders).
  pose proof (read_writes (added_results report_manager ++ parsed_results exec_results)
                (providers report_manager)) as (Hp & Hr & Hw).
  simpl in Hp, Hr, Hw. simpl.
  repeat split.
  - rewrite !reported_app, reported_loop, Hr, !reported_prints.
    now rewrite app_nil_r.
  - now rewrite !printed_app, printed_loop, Hp, !printed_prints.
  - rewrite !written_app, written_loop, Hw, !written_prints.
    now rewrite app_nil_r.
Qed.

(** *** Result handling stays local *)

Lemma local_trace (t : list event) :
  Forall (fun e => is_local e = true) t ->
  calls_run_test t = false /\ calls_run_tests t = false /\ waits_for_events t = false.
Proof.
  unfold calls_run_test, calls_run_tests, waits_for_events.
  induction 1 as [|e t He _ (IH1 & IH2 & IH3)]; [now repeat split|].
  simpl. rewrite IH1, IH2, IH3. now destruct e.
Qed.

Lemma handle_reports_local report_manager exec_results :
  Forall (fun e => is_local e = true) (_handle_reports report_manager exec_results).1.
Proof.
  destruct (has_providers report_manager) eqn:Hproviders.
  - rewrite (handle_reports_closed _ _ Hproviders). simpl.
    rewrite !Forall_app. repeat split.
    + now apply Forall_fmap, Forall_true.
    + apply Forall_bind, Forall_true. intros r. unfold compose, loop_events.
      destruct (to_testresults (exit_output (notebook_result r)));
        now repeat constructor.
    + now apply Forall_fmap, Forall_true.
    + now apply Forall_fmap, Forall_true.
  - unfold _handle_reports. rewrite Hproviders. constructor.
Qed.

Lemma handle_results_local results junit_report tags_report :
  Forall (fun e => is_local e = true)
         (_handle_results results junit_report tags_report).1.
Proof.
  unfold _handle_results. rewrite !io_bind_trace. simpl.
  constructor; [reflexivity|].
  apply Forall_app. split; [apply handle_reports_local|].
  destruct (_handle_reports _ _).2; simpl; constructor.
Qed.

(** *** The two ends of [run] before any dispatch *)

(** C4: with no cluster selector at all, [run] logs [NotEnoughArguments]
    and exits with status 1; no test reaches the runner. *)
Theorem no_cluster_selector_exits (fs : filesystem) (a : run_args) :
  truthy_str (cluster_conf_path a) = false ->
  truthy_str (cluster_id a) = false ->
  truthy (cluster_config a) = false ->
  run fs a =
    ([LogFatal (NotEnoughArguments
        "cluster_conf_path or cluster_id or cluster_config must be provided")],
     Raise (SystemExit 1))
  /\ dispatched (run fs a) = false
  /\ exit_status (run fs a) = Some 1.
Proof.
  intros Hpath Hid Hconfig.
  assert (Hrun : run fs a =
    ([LogFatal (NotEnoughArguments
        "cluster_conf_path or cluster_id or cluster_config must be provided")],
     Raise (SystemExit 1))).
  { unfold run, no_cluster_selector. now rewrite Hpath, Hid, Hconfig. }
  now rewrite Hrun.
Qed.

Lemma run_config_error fs a e :
  no_cluster_selector a = false ->
  cluster_conf fs a = Raise e ->
  is_Exception e = true ->
  run fs a = ([LogFatal e], Raise (SystemExit 1)).
Proof.
  intros Hselector Hconf He. unfold run. rewrite Hselector, Hconf. simpl.
  now rewrite He.
Qed.

(** C3, as the code has it: a path that does not exist, or a file whose
    JSON object has no [base_config] or a falsy one, makes
    [read_job_cluster_config] raise [ClusterConfigException]; and a [run]
    that resolves its cluster from that path (no inline [cluster_config])
    logs the exception and exits with status 1 with no test dispatched. *)
Theorem missing_config_raises_before_dispatch
    (fs : filesystem) (path : string) (cluster_type' : option string) :
  fs path = None
  \/ (exists config : pydict,
        fs path = Some (Document (PyDict config))
        /\ truthy (default PyNone (config !! "base_config")) = false) ->
  exists msg,
    read_job_cluster_config fs path cluster_type' = Raise (ClusterConfigException msg)
    /\ forall a,
         cluster_config a = PyNone ->
         cluster_conf_path a = Some path ->
         path ≠ "" ->
         cluster_type a = cluster_type' ->
         run fs a = ([LogFatal (ClusterConfigException msg)], Raise (SystemExit 1))
         /\ dispatched (run fs a) = false
         /\ exit_status (run fs a) = Some 1.
Proof.
  intros Hfile.
  assert (Hread : exists msg,
    read_job_cluster_config fs path cluster_type' = Raise (ClusterConfigException msg)).
  { unfold read_job_cluster_config.
    destruct Hfile as [Hnone | (config & Hdoc & Hfalsy)].
    - rewrite Hnone. eauto.
    - rewrite Hdoc, Hfalsy. eauto. }
  destruct Hread as [msg Hread]. exists msg. split; [exact Hread|].
  intros a Hconfig Hpath Hne Htype.
  assert (Htruthy : truthy_str (cluster_conf_path a) = true).
  { rewrite Hpath. simpl. now apply negb_true_iff, String.eqb_neq. }
  assert (Hrun : run fs a = ([LogFatal (ClusterConfigException msg)], Raise (SystemExit 1))).
  { apply run_config_error; [| |reflexivity].
    - unfold no_cluster_selector. now rewrite Htruthy.
    - unfold cluster_conf. rewrite Hconfig, Htruthy, Hpath, Htype. exact Hread. }
  now rewrite Hrun.
Qed.

(** *** Telling a test from a pattern *)

Lemma split_not_nil (sep : ascii) (s : string) : split sep s ≠ [].
Proof.
  destruct s as [|c rest]; simpl; [discriminate|].
  destruct (Ascii.eqb c sep); [discriminate|].
  destruct (split sep rest); discriminate.
Qed.

Lemma split_no_sep (sep : ascii) (s : string) :
  occurs sep s = false -> split sep s = [s].
Proof.
  induction s as [|c rest IH]; simpl; [reflexivity|].
  intros [Hc Hrest]%orb_false_iff.
  rewrite Hc, (IH Hrest). reflexivity.
Qed.

Lemma split_at_sep (sep : ascii) (before after : string) :
  split sep (before +:+ String sep after) = split sep before ++ split sep after.
Proof.
  induction before as [|c rest IH]; simpl.
  - now rewrite Ascii.eqb_refl.
  - rewrite IH. destruct (Ascii.eqb c sep); [reflexivity|].
    destruct (split sep rest) as [|segment segments] eqn:Hsplit; [|reflexivity].
    now apply split_not_nil in Hsplit.
Qed.

Lemma last_segment_of_split (pattern name : string) :
  is_last_segment pattern name ->
  let segments := split "/" pattern in
  (0 <? length segments)%nat = true
  /\ segments !! (length segments - 1)%nat = Some name.
Proof.
  intros [Hname [-> | [before ->]]]; simpl.
  - rewrite (split_no_sep _ _ Hname). now split.
  - rewrite split_at_sep, (split_no_sep _ _ Hname), length_app. simpl. split.
    + apply Nat.ltb_lt. lia.
    + replace (length (split "/" before) + 1 - 1)%nat
        with (length (split "/" before) + 0)%nat by lia.
      now rewrite lookup_app_r, Nat.add_0_r, Nat.sub_diag by lia.
Qed.

Lemma is_a_test_pattern_by_name (pattern name : string) :
  is_last_segment pattern name ->
  _is_a_test_pattern pattern = Return (negb (is_valid_test_name name)).
Proof.
  intros [Hlength Hlast]%last_segment_of_split. simpl in Hlength, Hlast.
  unfold _is_a_test_pattern. rewrite Hlength, Hlast.
  now destruct (is_valid_test_name name).
Qed.

(** *** The two dispatch paths *)

Lemma run_dispatch fs a conf is_pattern :
  no_cluster_selector a = false ->
  cluster_conf fs a = Return conf ->
  _is_a_test_pattern (test_pattern a) = Return is_pattern ->
  run fs a =
  try_except
    (if is_pattern then
       do! results := call_run_tests
         {| rts_pattern := test_pattern a;
            rts_cluster_id := cluster_id a;
            rts_cluster_conf := conf;
            rts_timeout := timeout a;
            rts_max_parallel_tests := max_parallel_tests a;
            rts_recursive := recursive a;
            rts_poll_wait_time := poll_wait_time a;
            rts_notebook_params := notebook_params a |} in
       emit EventsProcessorWait ;;!
       _handle_results results (junit_report a) (tags_report a)
     else
       do! result := call_run_test
         {| rt_test_pattern := test_pattern a;
            rt_cluster_id := cluster_id a;
            rt_timeout := timeout a;
            rt_poll_wait_time := poll_wait_time a |} in
       _handle_results [result] (junit_report a) (tags_report a))
    fatal_exit.
Proof.
  intros Hselector Hconf Hpattern. unfold run.
  rewrite Hselector, Hconf, Hpattern. simpl.
  destruct is_pattern.
  - match goal with |- context [try_except ?body] => now destruct body end.
  - match goal with |- context [try_except ?body] => now destruct body end.
Qed.

Lemma fatal_tail_local {A} (r : outcome A) :
  Forall (fun e => is_local e = true)
    match r with
    | Raise e => if is_Exception e then (fatal_exit e).1 else []
    | _ => []
    end.
Proof.
  destruct r as [| e |]; try constructor.
  destruct (is_Exception e); repeat constructor.
Qed.

Lemma run_single_test_trace fs a conf :
  no_cluster_selector a = false ->
  cluster_conf fs a = Return conf ->
  _is_a_test_pattern (test_pattern a) = Return false ->
  exists rest,
    (run fs a).1 =
      CallRunTest {| rt_test_pattern := test_pattern a;
                     rt_cluster_id := cluster_id a;
                     rt_timeout := timeout a;
                     rt_poll_wait_time := poll_wait_time a |} :: rest
    /\ Forall (fun e => is_local e = true) rest.
Proof.
  intros Hselector Hconf Hpattern.
  rewrite (run_dispatch _ _ _ _ Hselector Hconf Hpattern).
  rewrite try_except_trace, io_bind_trace. simpl.
  eexists. split; [reflexivity|].
  apply Forall_app. split; [|apply fatal_tail_local].
  destruct (nutter_run_test _); simpl; try constructor.
  apply handle_results_local.
Qed.

Lemma local_not_dispatch (t : list event) :
  Forall (fun e => is_local e = true) t -> Forall (fun e => is_dispatch e = false) t.
Proof. intros Hlocal. eapply Forall_impl; [exact Hlocal|]. now intros []. Qed.

Lemma no_dispatch_trace (t : list event) :
  Forall (fun e => is_dispatch e = false) t ->
  calls_run_test t = false /\ calls_run_tests t = false.
Proof.
  unfold calls_run_test, calls_run_tests.
  induction 1 as [|e t He _ (IH1 & IH2)]; [now split|].
  simpl. rewrite IH1, IH2. now destruct e.
Qed.

Lemma run_pattern_trace fs a conf :
  no_cluster_selector a = false ->
  cluster_conf fs a = Return conf ->
  _is_a_test_pattern (test_pattern a) = Return true ->
  exists rest,
    (run fs a).1 =
      CallRunTests {| rts_pattern := test_pattern a;
                      rts_cluster_id := cluster_id a;
                      rts_cluster_conf := conf;
                      rts_timeout := timeout a;
                      rts_max_parallel_tests := max_parallel_tests a;
                      rts_recursive := recursive a;
                      rts_poll_wait_time := poll_wait_time a;
                      rts_notebook_params := notebook_params a |} :: rest
    /\ Forall (fun e => is_dispatch e = false) rest.
Proof.
  intros Hselector Hconf Hpattern.
  rewrite (run_dispatch _ _ _ _ Hselector Hconf Hpattern).
  rewrite try_except_trace, io_bind_trace. simpl.
  eexists. split; [reflexivity|].
  apply Forall_app. split; [|apply local_not_dispatch, fatal_tail_local].
  destruct (nutter_run_tests _) as [results| |]; simpl; try constructor.
  pose proof (handle_results_local results (junit_report a) (tags_report a)) as Hlocal.
  destruct (_handle_results results (junit_report a) (tags_report a)) as [t' r].
  simpl in *. constructor; [reflexivity|]. now apply local_not_dispatch.
Qed.

Lemma run_stops_early fs a :
  no_cluster_selector a = true \/ (forall conf, cluster_conf fs a ≠ Return conf) ->
  Forall (fun e => is_dispatch e = false) (run fs a).1.
Proof.
  unfold run. intros Hstop.
  destruct (no_cluster_selector a); simpl; [repeat constructor|].
  destruct Hstop as [Hselector | Hconf]; [discriminate|].
  destruct (cluster_conf fs a) as [conf|e|]; simpl;
    [now destruct (Hconf conf)| |constructor].
  destruct (is_Exception e); repeat constructor.
Qed.

(** C8: in a run that gets as far as line 72, a cluster selector being
    given and the cluster configuration resolved, [run_test] is called
    exactly when the part of [test_pattern] after its last ['/'] (all of
    it when it has none) is a valid test name, and [run_tests] is called
    exactly when it is not. *)
Theorem run_dispatches_by_test_name
    (fs : filesystem) (a : run_args) (conf : pyval) (name : string) :
  no_cluster_selector a = false ->
  cluster_conf fs a = Return conf ->
  is_last_segment (test_pattern a) name ->
  calls_run_test (run fs a).1 = is_valid_test_name name
  /\ calls_run_tests (run fs a).1 = negb (is_valid_test_name name).
Proof.
  intros Hselector Hresolved Hname%is_a_test_pattern_by_name.
  destruct (is_valid_test_name name); simpl in Hname.
  - destruct (run_single_test_trace _ _ _ Hselector Hresolved Hname)
      as (rest & -> & Hrest).
    apply local_not_dispatch, no_dispatch_trace in Hrest as [H1 H2].
    unfold calls_run_test, calls_run_tests in *. simpl. now rewrite H2.
  - destruct (run_pattern_trace _ _ _ Hselector Hresolved Hname)
      as (rest & -> & Hrest).
    apply no_dispatch_trace in Hrest as [H1 H2].
    unfold calls_run_test, calls_run_tests in *. simpl. now rewrite H1.
Qed.

End CliProperties.

(** ** The properties on the concrete setting *)

#[local] Existing Instance sample_collaborators.

Lemma missing_config_sample :
  read_job_cluster_config (single_file "conf.json" gpu_document) "missing.json" (Some "gpu")
  = Raise (ClusterConfigException "Cluster config by path missing.json is not found")
  /\ run (single_file "conf.json" gpu_document) (file_args "/Shared/etl/" "missing.json" (Some "gpu"))
     = ([LogFatal (ClusterConfigException
                     "Cluster config by path missing.json is not found")],
        Raise (SystemExit 1)).
Proof.
  destruct (missing_config_raises_before_dispatch
              (single_file "conf.json" gpu_document) "missing.json" (Some "gpu")
              (or_introl eq_refl)) as (msg & Hread & Hrun).
  assert (Hmsg : msg = "Cluster config by path missing.json is not found").
  { vm_compute in Hread. now injection Hread as <-. }
  subst msg. split; [exact Hread|].
  destruct (Hrun (file_args "/Shared/etl/" "missing.json" (Some "gpu"))) as [Hexit _];
    [reflexivity | reflexivity | discriminate | reflexivity | exact Hexit].
Defined.

(** C3 as stated fails on a [base_config] that is there but is not an
    object: the file has no [base_config] object, nothing is raised, and
    the test is dispatched. *)
Lemma non_object_base_config_not_raised :
  read_job_cluster_config
    (single_file "conf.json" (PyDict {[ "base_config" := PyInt 5 ]})) "conf.json" None
  = Return (PyInt 5)
  /\ dispatched
       (run (single_file "conf.json" (PyDict {[ "base_config" := PyInt 5 ]}))
            (file_args "/Shared/etl/" "conf.json" None))
     = true.
Proof. split; vm_compute; reflexivity. Qed.

Lemma no_cluster_selector_sample :
  run (single_file "conf.json" gpu_document) bare_args
  = ([LogFatal (NotEnoughArguments
        "cluster_conf_path or cluster_id or cluster_config must be provided")],
     Raise (SystemExit 1)).
Proof.
  destruct (no_cluster_selector_exits (single_file "conf.json" gpu_document) bare_args)
    as [Hrun _]; [reflexivity | reflexivity | reflexivity | exact Hrun].
Defined.

(** The example of the specification: five results, one of them with an
    exit output that does not parse. *)
Lemma one_unparsable_among_five :
  let exec_results :=
    [passing_result "/t/test_a"; passing_result "/t/test_b";
     garbled_result "/t/test_c"; passing_result "/t/test_d";
     passing_result "/t/test_e"] in
  let r := _handle_reports (get_report_writer_manager JUNIT) exec_results in
  reported r.1 =
    [("/t/test_a", "{results}"); ("/t/test_b", "{results}");
     ("/t/test_d", "{results}"); ("/t/test_e", "{results}")]
  /\ printed_lines r.1 =
      ["Writing JunitXMLReportWriter report.";
       "Warning:";
       String (Ascii.ascii_of_nat 9)
         "The output of /t/test_c is missing or the format is invalid.";
       "File test-results.xml written"]
  /\ written r.1 =
      [("test-results.xml",
        [("/t/test_a", "{results}"); ("/t/test_b", "{results}");
         ("/t/test_d", "{results}"); ("/t/test_e", "{results}")])].
Proof.
  intros exec_results r.
  assert (Hproviders : has_providers (get_report_writer_manager JUNIT) = true)
    by reflexivity.
  destruct (unparsable_results_skipped_with_warning
              (get_report_writer_manager JUNIT) exec_results Hproviders)
    as (Hreported & Hprinted & Hwritten).
  fold r in Hreported, Hprinted, Hwritten.
  rewrite Hreported, Hprinted, Hwritten. repeat split.
Defined.

Lemma test_name_dispatch_sample :
  calls_run_test (run (single_file "conf.json" gpu_document) sample_args).1 = true
  /\ calls_run_tests (run (single_file "conf.json" gpu_document) sample_args).1 = false.
Proof.
  destruct (run_dispatches_by_test_name
              (single_file "conf.json" gpu_document) sample_args PyNone "test_load")
    as [Htest Htests].
  - reflexivity.
  - reflexivity.
  - split; [reflexivity|]. right. exists "/Shared/etl". reflexivity.
  - rewrite Htest, Htests. split; reflexivity.
Defined.

(** C9, on the code: with only a configuration file given, a single-test
    run resolves the cluster configuration and then drops it: [run_test]
    is called with the pattern, no cluster id, the timeout and the poll
    wait time, and the events processor is not waited for. On the pattern
    path the same arguments send the resolved configuration to
    [run_tests], and the wait follows. An inline cluster definition and
    notebook parameters are dropped in the same way. *)
Theorem single_test_run_drops_cluster_conf :
  cluster_conf (single_file "conf.json" gpu_document)
               (file_args "/Shared/etl/test_load" "conf.json" (Some "gpu"))
  = Return (PyDict {[ "a" := PyInt 1; "b" := PyInt 3 ]})
  /\ run (single_file "conf.json" gpu_document)
         (file_args "/Shared/etl/test_load" "conf.json" (Some "gpu"))
     = ([CallRunTest {| rt_test_pattern := "/Shared/etl/test_load";
                        rt_cluster_id := None;
                        rt_timeout := 120;
                        rt_poll_wait_time := 5 |};
         DisplayTestResults [passing_result "/Shared/etl/test_load"]],
        Return tt)
  /\ run (single_file "conf.json" gpu_document)
         (file_args "/Shared/etl/" "conf.json" (Some "gpu"))
     = ([CallRunTests {| rts_pattern := "/Shared/etl/";
                         rts_cluster_id := None;
                         rts_cluster_conf := PyDict {[ "a" := PyInt 1; "b" := PyInt 3 ]};
                         rts_timeout := 120;
                         rts_max_parallel_tests := 1;
                         rts_recursive := false;
                         rts_poll_wait_time := 5;
                         rts_notebook_params := PyNone |};
         EventsProcessorWait;
         DisplayTestResults [passing_result "/Shared/etl/test_a";
                             garbled_result "/Shared/etl/test_b"]],
        Return tt)
  /\ run (single_file "conf.json" gpu_document) (configured_args "/Shared/etl/test_load")
     = ([CallRunTest {| rt_test_pattern := "/Shared/etl/test_load";
                        rt_cluster_id := Some "0123-456789-abc";
                        rt_timeout := 120;
                        rt_poll_wait_time := 5 |};
         DisplayTestResults [passing_result "/Shared/etl/test_load"]],
        Return tt)
  /\ run (single_file "conf.json" gpu_document) (configured_args "/Shared/etl/")
     = ([CallRunTests {| rts_pattern := "/Shared/etl/";
                         rts_cluster_id := Some "0123-456789-abc";
                         rts_cluster_conf := PyDict {[ "num_workers" := PyInt 2 ]};
                         rts_timeout := 120;
                         rts_max_parallel_tests := 1;
                         rts_recursive := false;
                         rts_poll_wait_time := 5;
                         rts_notebook_params := PyDict {[ "env" := PyStr "dev" ]} |};
         EventsProcessorWait;
         DisplayTestResults [passing_result "/Shared/etl/test_a";
                             garbled_result "/Shared/etl/test_b"]],
        Return tt).
Proof. repeat split; vm_compute; reflexivity. Qed.

(** * Further properties *)

(** ** The cluster configuration *)

Lemma py_in_not_config_error x container msg :
  py_in x container ≠ Raise (ClusterConfigException msg).
Proof. destruct container, x; discriminate. Qed.

Lemma py_getitem_not_config_error container x msg :
  py_getitem container x ≠ Raise (ClusterConfigException msg).
Proof.
  destruct container as [| | | | |d]; try discriminate.
  simpl. destruct (x ≫= (d !!.)); discriminate.
Qed.

Lemma update_item_not_config_error (d : pydict) item msg :
  update_item d item ≠ Raise (ClusterConfigException msg).
Proof.
  destruct item as [| | |[|? [|? []]]|[|[] [|? [|]]]|m]; try discriminate.
  simpl. destruct (bool_decide (size m = 2%nat)); discriminate.
Qed.

Lemma update_items_not_config_error (d : pydict) items msg :
  update_items d items ≠ Raise (ClusterConfigException msg).
Proof.
  revert d. induction items as [|item rest IH]; intros d; [discriminate|].
  simpl. destruct (update_item d item) as [d'| |] eqn:Hitem; simpl.
  - apply IH.
  - intros [= ->]. now apply update_item_not_config_error in Hitem.
  - discriminate.
Qed.

Lemma dict_update_not_config_error (d : pydict) other msg :
  dict_update d other ≠ Raise (ClusterConfigException msg).
Proof.
  destruct other as [| | |[|]|items|]; try discriminate.
  apply update_items_not_config_error.
Qed.

(** [read_job_cluster_config] raises [ClusterConfigException] in two
    cases and no other: the path does not exist, or the file holds a JSON
    object whose [base_config] is absent or falsy; the message tells
    which and names the path. *)
Theorem cluster_config_exception_iff
    (fs : filesystem) (path : string) (cluster_type' : option string) (msg : string) :
  read_job_cluster_config fs path cluster_type' = Raise (ClusterConfigException msg)
  <-> (fs path = None
       /\ msg = "Cluster config by path " +:+ path +:+ " is not found")
      \/ (exists config : pydict,
            fs path = Some (Document (PyDict config))
            /\ truthy (default PyNone (config !! "base_config")) = false
            /\ msg = "Base config section is not found in file " +:+ path).
Proof.
  unfold read_job_cluster_config. split.
  - destruct (fs path) as [[| |doc]|]; try discriminate.
    + destruct doc as [| | | | |config]; try discriminate.
      destruct (truthy (default PyNone (config !! "base_config"))) eqn:Htruthy.
      * destruct (config !! "cluster_configs") as [cluster_configs|];
          [|discriminate].
        destruct (py_in cluster_type' cluster_configs) as [[|]| |] eqn:Hin;
          simpl; try discriminate;
          [|intros [= ->]; now apply py_in_not_config_error in Hin].
        destruct (default PyNone (config !! "base_config")); try discriminate.
        destruct (py_getitem cluster_configs cluster_type') as [overlay| |] eqn:Hitem;
          simpl; try discriminate;
          [|intros [= ->]; now apply py_getitem_not_config_error in Hitem].
        destruct (dict_update d overlay) eqn:Hupdate; simpl; try discriminate.
        intros [= ->]. now apply dict_update_not_config_error in Hupdate.
      * intros [= <-]. right. eauto.
    + intros [= <-]. now left.
  - intros [[-> ->] | (config & -> & -> & ->)]; reflexivity.
Qed.

Lemma overlay_nonempty (overlay base : pydict) : base ≠ ∅ -> overlay ∪ base ≠ ∅.
Proof.
  intros Hbase Hunion. apply Hbase, map_empty. intros key.
  apply (f_equal (fun d => d !! key)) in Hunion.
  rewrite lookup_overlay, lookup_empty in Hunion.
  now destruct (overlay !! key).
Qed.

Lemma update_item_nonempty (d updated : pydict) item :
  update_item d item = Return updated -> updated ≠ ∅.
Proof.
  destruct item as [| | |[|? [|? []]]|[|[] [|? [|]]]|m]; try discriminate;
    try (intros [= <-]; apply insert_non_empty).
  simpl. destruct (bool_decide (size m = 2%nat)); discriminate.
Qed.

Lemma update_items_nonempty (d updated : pydict) items :
  d ≠ ∅ -> update_items d items = Return updated -> updated ≠ ∅.
Proof.
  revert d. induction items as [|item rest IH]; intros d Hd; simpl.
  - now intros [= <-].
  - destruct (update_item d item) as [d'| |] eqn:Hitem; simpl; try discriminate.
    apply IH. now apply update_item_nonempty in Hitem.
Qed.

Lemma dict_update_nonempty (d updated : pydict) other :
  d ≠ ∅ -> dict_update d other = Return updated -> updated ≠ ∅.
Proof.
  intros Hd. destruct other as [| | |[|]|items|o]; try discriminate.
  - now intros [= <-].
  - now apply update_items_nonempty.
  - intros [= <-]. now apply overlay_nonempty.
Qed.

(** Whatever [read_job_cluster_config] returns is truthy: never [None],
    and never the empty dictionary the function starts from. *)
Theorem read_job_cluster_config_returns_truthy
    (fs : filesystem) (path : string) (cluster_type' : option string) (v : pyval) :
  read_job_cluster_config fs path cluster_type' = Return v ->
  truthy v = true.
Proof.
  unfold read_job_cluster_config.
  destruct (fs path) as [[| |doc]|]; try discriminate.
  destruct doc as [| | | | |config]; try discriminate.
  destruct (truthy (default PyNone (config !! "base_config"))) eqn:Htruthy;
    [|discriminate].
  destruct (config !! "cluster_configs") as [cluster_configs|];
    [|now intros [= <-]].
  destruct (py_in cluster_type' cluster_configs) as [[|]| |];
    simpl; try discriminate; [|now intros [= <-]].
  destruct (default PyNone (config !! "base_config")) as [| | | | |base];
    try discriminate.
  destruct (py_getitem cluster_configs cluster_type') as [overlay| |];
    simpl; try discriminate.
  destruct (dict_update base overlay) as [updated| |] eqn:Hupdate;
    simpl; try discriminate.
  intros [= <-]. apply truthy_nonempty_dict.
  apply (dict_update_nonempty base updated overlay); [|exact Hupdate].
  intros ->. discriminate Htruthy.
Qed.

(** An entry of [cluster_configs] that is [null], a boolean or a number
    cannot be merged: the function raises [TypeError], and a run that
    resolves its cluster from that file logs it and exits with status 1
    before any dispatch. *)
Theorem scalar_overlay_is_fatal `{C : Collaborators}
    (fs : filesystem) (path type : string)
    (config base cluster_configs : pydict) (entry : pyval) :
  fs path = Some (Document (PyDict config)) ->
  config !! "base_config" = Some (PyDict base) ->
  base ≠ ∅ ->
  config !! "cluster_configs" = Some (PyDict cluster_configs) ->
  cluster_configs !! type = Some entry ->
  entry = PyNone \/ (exists b, entry = PyBool b) \/ (exists n, entry = PyInt n) ->
  read_job_cluster_config fs path (Some type) = Raise TypeError
  /\ forall a,
       cluster_config a = PyNone ->
       cluster_conf_path a = Some path ->
       path ≠ "" ->
       cluster_type a = Some type ->
       run fs a = ([LogFatal TypeError], Raise (SystemExit 1)).
Proof.
  intros Hfs Hbase Hne Hconfigs Hentry Hscalar.
  assert (Hread : read_job_cluster_config fs path (Some type) = Raise TypeError).
  { rewrite (read_with_cluster_configs _ _ _ _ _ _ Hfs Hbase
               (truthy_nonempty_dict _ Hne) Hconfigs).
    simpl. rewrite Hentry.
    now destruct Hscalar as [-> | [[b ->] | [n ->]]]. }
  split; [exact Hread|].
  intros a Hinline Hpath Hnonempty Htype.
  assert (Htruthy : truthy_str (cluster_conf_path a) = true).
  { rewrite Hpath. simpl. now apply negb_true_iff, String.eqb_neq. }
  apply run_config_error; [| |reflexivity].
  - unfold no_cluster_selector. now rewrite Htruthy.
  - unfold cluster_conf. now rewrite Hinline, Htruthy, Hpath, Htype.
Qed.

(** An overlay that only repeats what the base configuration already
    says, the empty overlay in particular, gives back the base
    configuration unchanged. *)
Theorem overlay_within_base_is_identity
    (fs : filesystem) (path type : string)
    (config base cluster_configs overlay : pydict) :
  fs path = Some (Document (PyDict config)) ->
  config !! "base_config" = Some (PyDict base) ->
  base ≠ ∅ ->
  config !! "cluster_configs" = Some (PyDict cluster_configs) ->
  cluster_configs !! type = Some (PyDict overlay) ->
  overlay ⊆ base ->
  read_job_cluster_config fs path (Some type) = Return (PyDict base).
Proof.
  intros Hfs Hbase Hne Hconfigs Hentry Hwithin.
  rewrite (read_with_cluster_configs _ _ _ _ _ _ Hfs Hbase
             (truthy_nonempty_dict _ Hne) Hconfigs).
  simpl. rewrite Hentry. simpl. now rewrite (map_subseteq_union _ _ Hwithin).
Qed.

(** ** More on [run] and its helpers *)

Section MoreCliProperties.
Context `{C : Collaborators}.

(** *** Which configuration a run uses *)

(** An inline [cluster_config] takes precedence: when one is given, or
    when no [cluster_conf_path] is, the file system is never consulted,
    and the configuration used is the inline one ([None] without it). *)
Theorem inline_cluster_config_wins (fs fs' : filesystem) (a : run_args) :
  cluster_config a ≠ PyNone \/ truthy_str (cluster_conf_path a) = false ->
  cluster_conf fs a = Return (cluster_config a)
  /\ run fs a = run fs' a.
Proof.
  intros Hinline.
  assert (Hconf : forall fs0, cluster_conf fs0 a = Return (cluster_config a)).
  { intros fs0. unfold cluster_conf. destruct Hinline as [Hgiven | Hpath].
    - now destruct (cluster_config a).
    - rewrite Hpath. now destruct (cluster_config a). }
  split; [apply Hconf|]. unfold run. now rewrite !Hconf.
Qed.

(** *** How a run ends *)

Lemma try_except_fatal_outcome (body : io unit) :
  (try_except body fatal_exit).2 = after_handler body.2.
Proof.
  destruct body as [t [[]|e|]]; simpl; try reflexivity.
  now destruct (is_Exception e).
Qed.

(** No [Exception] ever leaves [run]: it returns, or the process exits. *)
Theorem run_lets_no_exception_escape (fs : filesystem) (a : run_args) :
  match (run fs a).2 with
  | Raise e => is_Exception e = false
  | _ => True
  end.
Proof.
  unfold run. rewrite try_except_fatal_outcome.
  match goal with |- context [after_handler ?o] => destruct o as [|e|] end;
    simpl; try exact I.
  destruct (is_Exception e) eqn:He; simpl; [reflexivity|exact He].
Qed.

(** When the runner raises an [Exception], the run is over: the error is
    logged and the process exits with status 1, with nothing displayed,
    reported or validated, and without waiting for the events processor. *)
Theorem runner_failure_is_fatal
    (fs : filesystem) (a : run_args) (conf : pyval) (e : py_exception) :
  no_cluster_selector a = false ->
  cluster_conf fs a = Return conf ->
  is_Exception e = true ->
  let tests_call :=
    {| rts_pattern := test_pattern a;
       rts_cluster_id := cluster_id a;
       rts_cluster_conf := conf;
       rts_timeout := timeout a;
       rts_max_parallel_tests := max_parallel_tests a;
       rts_recursive := recursive a;
       rts_poll_wait_time := poll_wait_time a;
       rts_notebook_params := notebook_params a |} in
  let test_call :=
    {| rt_test_pattern := test_pattern a;
       rt_cluster_id := cluster_id a;
       rt_timeout := timeout a;
       rt_poll_wait_time := poll_wait_time a |} in
  (_is_a_test_pattern (test_pattern a) = Return true ->
   nutter_run_tests tests_call = Raise e ->
   run fs a = ([CallRunTests tests_call; LogFatal e], Raise (SystemExit 1)))
  /\ (_is_a_test_pattern (test_pattern a) = Return false ->
      nutter_run_test test_call = Raise e ->
      run fs a = ([CallRunTest test_call; LogFatal e], Raise (SystemExit 1))).
Proof.
  intros Hselector Hconf He tests_call test_call. split; intros Hpattern Hrunner;
    rewrite (run_dispatch _ _ _ _ Hselector Hconf Hpattern).
  - unfold call_run_tests. fold tests_call. rewrite Hrunner. simpl.
    now rewrite He.
  - unfold call_run_test. fold test_call. rewrite Hrunner. simpl.
    now rewrite He.
Qed.

(** *** Telling a test from a pattern, again *)

Lemma last_segment_exists (pattern : string) :
  exists name, is_last_segment pattern name.
Proof.
  unfold is_last_segment.
  induction pattern as [|c rest (name & Hname & [-> | [before ->]])].
  - exists "". split; [reflexivity|now left].
  - destruct (Ascii.eqb c "/") eqn:Hc.
    + apply Ascii.eqb_eq in Hc as ->. exists name. split; [exact Hname|].
      right. now exists "".
    + exists (String c name). split; [|now left].
      simpl. now rewrite Hc, Hname.
  - exists name. split; [exact Hname|]. right. now exists (String c before).
Qed.

(** [_is_a_test_pattern] answers for every pattern, the empty one
    included: the branch that calls [logging.Fatal] is never taken. The
    answer is [False] exactly when the last segment is a valid test name. *)
Theorem is_a_test_pattern_total (pattern : string) :
  exists name,
    is_last_segment pattern name
    /\ _is_a_test_pattern pattern = Return (negb (is_valid_test_name name)).
Proof.
  destruct (last_segment_exists pattern) as [name Hname].
  exists name. split; [exact Hname|]. now apply is_a_test_pattern_by_name.
Qed.

Lemma append_assoc (s1 s2 s3 : string) : (s1 +:+ s2) +:+ s3 = s1 +:+ (s2 +:+ s3).
Proof.
  induction s1 as [|c s1 IH]; [reflexivity|].
  change (String c ((s1 +:+ s2) +:+ s3) = String c (s1 +:+ (s2 +:+ s3))).
  now rewrite IH.
Qed.

(** The directory part of a pattern has no bearing on the answer: only
    what follows the last ['/'] is looked at. *)
Theorem is_a_test_pattern_ignores_directory (directory pattern : string) :
  _is_a_test_pattern (directory +:+ String "/" pattern)
  = _is_a_test_pattern pattern.
Proof.
  destruct (last_segment_exists pattern) as (name & Hname & Hshape).
  rewrite (is_a_test_pattern_by_name pattern name) by now split.
  apply is_a_test_pattern_by_name. split; [exact Hname|]. right.
  destruct Hshape as [-> | [before ->]].
  - now exists directory.
  - exists (directory +:+ String "/" before). now rewrite append_assoc.
Qed.

(** *** One dispatch at most *)

Lemma no_dispatch_count (t : list event) :
  Forall (fun e => is_dispatch e = false) t -> dispatch_count t = 0%nat.
Proof.
  unfold dispatch_count. induction 1 as [|e t He _ IH]; [reflexivity|].
  rewrite filter_cons, decide_False by congruence. exact IH.
Qed.

(** A run calls the runner once at most: one [run_tests] or one
    [run_test], never both and never twice. *)
Theorem run_dispatches_at_most_once (fs : filesystem) (a : run_args) :
  (dispatch_count (run fs a).1 <= 1)%nat.
Proof.
  assert (Hearly : no_cluster_selector a = true
                   \/ (forall conf, cluster_conf fs a ≠ Return conf) ->
                   (dispatch_count (run fs a).1 <= 1)%nat).
  { intros Hstop. rewrite (no_dispatch_count _ (run_stops_early _ _ Hstop)). lia. }
  destruct (no_cluster_selector a) eqn:Hselector; [now apply Hearly; left|].
  destruct (cluster_conf fs a) as [conf| |] eqn:Hresolved;
    [|apply Hearly; right; discriminate..].
  destruct (last_segment_exists (test_pattern a)) as [name Hpattern].
  apply is_a_test_pattern_by_name in Hpattern.
  destruct (is_valid_test_name name); simpl in Hpattern.
  - destruct (run_single_test_trace _ _ _ Hselector Hresolved Hpattern)
      as (rest & -> & Hrest%local_not_dispatch%no_dispatch_count).
    unfold dispatch_count in *. rewrite filter_cons, decide_True by reflexivity.
    simpl. now rewrite Hrest.
  - destruct (run_pattern_trace _ _ _ Hselector Hresolved Hpattern)
      as (rest & -> & Hrest%no_dispatch_count).
    unfold dispatch_count in *. rewrite filter_cons, decide_True by reflexivity.
    simpl. now rewrite Hrest.
Qed.

(** *** Every result is accounted for *)

Lemma warning_count_app (t1 t2 : list event) :
  warning_count (t1 ++ t2) = (warning_count t1 + warning_count t2)%nat.
Proof.
  unfold warning_count. now rewrite printed_app, filter_app, length_app.
Qed.

Lemma warning_count_loop exec_results :
  warning_count (exec_results ≫= loop_events)
  = length (unparsed_results exec_results).
Proof.
  unfold unparsed_results.
  induction exec_results as [|r rest IH]; [reflexivity|].
  rewrite bind_cons, warning_count_app, IH, filter_cons.
  unfold loop_events.
  destruct (to_testresults (exit_output (notebook_result r))).
  - now rewrite decide_False by discriminate.
  - now rewrite decide_True by reflexivity.
Qed.

Lemma parsed_or_unparsed exec_results :
  (length (parsed_results exec_results) + length (unparsed_results exec_results))%nat
  = length exec_results.
Proof.
  unfold parsed_results, unparsed_results.
  induction exec_results as [|r rest IH]; [reflexivity|].
  rewrite bind_cons, length_app, filter_cons.
  destruct (to_testresults (exit_output (notebook_result r))).
  - rewrite decide_False by discriminate. simpl. lia.
  - rewrite decide_True by reflexivity. simpl. lia.
Qed.

Lemma warning_count_prints (line : string -> string) (items : list string) :
  (forall x, line x ≠ "Warning:") ->
  warning_count ((fun x => Print (line x)) <$> items) = 0%nat.
Proof.
  intros Hline. unfold warning_count. rewrite printed_prints.
  induction items as [|x items IH]; [reflexivity|].
  rewrite fmap_cons, filter_cons, decide_False by apply Hline. exact IH.
Qed.

(** With a provider selected, no result is dropped silently: each one is
    either handed to the report or announced by one ["Warning:"] line, so
    the two counts add up to the size of the batch. *)
Theorem every_result_reported_or_warned
    (report_manager : ReportWriterManager) (exec_results : list exec_result) :
  has_providers report_manager = true ->
  let t := (_handle_reports report_manager exec_results).1 in
  (length (reported t) + warning_count t)%nat = length exec_results.
Proof.
  intros Hproviders t. subst t.
  rewrite (handle_reports_closed _ _ Hproviders). simpl.
  pose proof (read_writes (added_results report_manager ++ parsed_results exec_results)
                (providers report_manager)) as (Hp & Hr & _).
  simpl in Hp, Hr.
  rewrite !reported_app, !warning_count_app, reported_loop, warning_count_loop.
  rewrite Hr, !reported_prints, !warning_count_prints by discriminate.
  unfold warning_count at 1. rewrite Hp. simpl.
  rewrite app_nil_r, Nat.add_0_r. apply parsed_or_unparsed.
Qed.

End MoreCliProperties.

(** ** The version, the header, the constructor and [list] *)

(** The version is [__version__] alone exactly when the build number is
    unset or empty; otherwise it is [__version__], a dot and the build
    number. Either way it begins with [__version__]. *)
Theorem get_cli_version_build_number (environ : environment) :
  String.prefix __version__ (get_cli_version environ) = true
  /\ (get_cli_version environ = __version__
      <-> truthy_str (environ BUILD_NUMBER_ENV_VAR) = false)
  /\ forall build_number,
       environ BUILD_NUMBER_ENV_VAR = Some build_number ->
       build_number ≠ "" ->
       get_cli_version environ = "0.1.36." +:+ build_number.
Proof.
  unfold get_cli_version.
  destruct (environ BUILD_NUMBER_ENV_VAR) as [b|]; simpl.
  - destruct (String.eqb_spec b "") as [->|Hb]; simpl.
    + repeat split; try reflexivity. intros b [= <-] Hne. now destruct Hne.
    + split; [reflexivity|]. split; [split; [|discriminate]|].
      * unfold __version__. cbn. intros [=].
      * now intros build_number [= <-] _.
  - repeat split; try reflexivity. discriminate.
Qed.

Lemma length_append (s1 s2 : string) :
  String.length (s1 +:+ s2) = (String.length s1 + String.length s2)%nat.
Proof.
  induction s1 as [|c s1 IH]; [reflexivity|].
  change (S (String.length (s1 +:+ s2)) = S (String.length s1 + String.length s2)).
  now rewrite IH.
Qed.

(** The header is the version label, a line break, a rule of 50 plus
    signs and a line break: 67 characters besides the version. *)
Theorem header_is_label_and_rule (environ : environment) :
  get_cli_header environ
  = _get_version_label environ +:+ newline +:+ str_times "+" 50 +:+ newline
  /\ String.length (get_cli_header environ)
     = (String.length (get_cli_version environ) + 67)%nat.
Proof.
  unfold get_cli_header, _get_version_label. split.
  - now rewrite !append_assoc.
  - rewrite !length_append. simpl. lia.
Qed.

Section ShellProperties.
Context `{S : Shell}.

(** Asked for the version, the constructor prints the version label and
    exits with status 0: no header, no logging set-up, no runner built,
    whatever the other arguments. *)
Theorem version_flag_exits_first (environ : environment) (debug log_to_file : bool) :
  __init__ environ debug log_to_file true
  = ([Console (_get_version_label environ)], Raise (SystemExit 0)).
Proof. reflexivity. Qed.

(** [log_to_file] counts only together with [debug]: without [debug] the
    constructor does the same with and without it, and sets up no
    logging; with [debug] the log goes to a file exactly when
    [log_to_file] is set. *)
Theorem log_to_file_needs_debug (environ : environment) (log_to_file version : bool) :
  __init__ environ false log_to_file version = __init__ environ false false version
  /\ (_set_debugging false log_to_file).1 = []
  /\ (_set_debugging true log_to_file).1
     = [BasicConfig (if log_to_file
                     then Some ("nutter-exec-" +:+ utcnow_stamp +:+ ".log")
                     else None)].
Proof. now destruct log_to_file. Qed.

(** Without the version flag, the constructor first sets up logging. If
    that raises (with [debug], [logging.basicConfig] cannot open the log
    file), the constructor ends there: no header, no runner. Otherwise it
    prints the header, then builds the runner once; it returns when the
    runner is built, an [InvalidConfigurationException] prints the
    configuration notice and exits with status 1, and any other exception
    leaves the constructor as it is. *)
Theorem constructor_ends_as_runner_builds (environ : environment) (debug log_to_file : bool) :
  let r := __init__ environ debug log_to_file false in
  let logging := _set_debugging debug log_to_file in
  match logging.2 with
  | Return _ =>
      r.1 = logging.1
            ++ [Console (get_cli_header environ); GetNutter debug]
            ++ match new_nutter debug with
               | Raise e => if is_InvalidConfigurationException e
                            then [Console config_error_message] else []
               | _ => []
               end
      /\ r.2 = match new_nutter debug with
               | Raise e => if is_InvalidConfigurationException e
                            then Raise (SystemExit 1) else Raise e
               | o => o
               end
  | Raise e => r = (logging.1, Raise e)
  | OutsideModel => r = (logging.1, OutsideModel)
  end.
Proof.
  intros r logging. subst r logging.
  unfold __init__, _set_nutter, _set_debugging.
  destruct debug; simpl.
  - destruct (basic_config _) as [[]|e0|]; simpl; try reflexivity.
    destruct (new_nutter true) as [[]|e|]; simpl;
      try destruct (is_InvalidConfigurationException e); simpl; now split.
  - destruct (new_nutter false) as [[]|e|]; simpl;
      try destruct (is_InvalidConfigurationException e); simpl; now split.
Qed.

(** [list] shows the tests only after the listing succeeded and the
    events processor was waited for; when the listing raises an
    [Exception], the error is logged and the process exits with status 1
    with nothing shown. No [Exception] leaves [list]. *)
Theorem list_ends_as_listing (path : string) (recursive : bool) :
  list_ path recursive
  = match nutter_list_tests path recursive with
    | Return results =>
        ([CallListTests path recursive; ListEventsProcessorWait;
          DisplayListResults results], Return tt)
    | Raise e =>
        if is_Exception e
        then ([CallListTests path recursive; Fatal e], Raise (SystemExit 1))
        else ([CallListTests path recursive], Raise e)
    | OutsideModel => ([CallListTests path recursive], OutsideModel)
    end
  /\ match (list_ path recursive).2 with
     | Raise e => is_Exception e = false
     | _ => True
     end.
Proof.
  unfold list_. destruct (nutter_list_tests path recursive) as [results|e|]; simpl.
  - now split.
  - destruct (is_Exception e) eqn:He; simpl; now split.
  - now split.
Qed.

End ShellProperties.

(** ** The further properties on the concrete setting *)

Lemma returned_config_truthy_sample :
  truthy (PyDict {[ "a" := PyInt 1; "b" := PyInt 3 ]}) = true.
Proof.
  apply (read_job_cluster_config_returns_truthy
           (single_file "conf.json" gpu_document) "conf.json" (Some "gpu")).
  vm_compute. reflexivity.
Defined.

Lemma null_overlay_sample :
  read_job_cluster_config (single_file "conf.json" null_overlay_document)
                          "conf.json" (Some "gpu")
  = Raise TypeError
  /\ run (single_file "conf.json" null_overlay_document)
         (file_args "/Shared/etl/" "conf.json" (Some "gpu"))
     = ([LogFatal TypeError], Raise (SystemExit 1)).
Proof.
  destruct (scalar_overlay_is_fatal
              (single_file "conf.json" null_overlay_document) "conf.json" "gpu"
              {[ "base_config" := PyDict {[ "a" := PyInt 1; "b" := PyInt 2 ]};
                 "cluster_configs" := PyDict {[ "gpu" := PyNone ]} ]}
              {[ "a" := PyInt 1; "b" := PyInt 2 ]}
              {[ "gpu" := PyNone ]}
              PyNone) as [Hread Hrun].
  - reflexivity.
  - reflexivity.
  - intros Hempty. apply (f_equal (fun d => d !! "a")) in Hempty. discriminate Hempty.
  - reflexivity.
  - reflexivity.
  - now left.
  - split; [exact Hread|].
    apply Hrun; [reflexivity | reflexivity | discriminate | reflexivity].
Defined.

Lemma repeating_overlay_sample :
  read_job_cluster_config (single_file "conf.json" repeating_overlay_document)
                          "conf.json" (Some "gpu")
  = Return (PyDict {[ "a" := PyInt 1; "b" := PyInt 2 ]}).
Proof.
  apply (overlay_within_base_is_identity
           (single_file "conf.json" repeating_overlay_document) "conf.json" "gpu"
           {[ "base_config" := PyDict {[ "a" := PyInt 1; "b" := PyInt 2 ]};
              "cluster_configs" := PyDict {[ "gpu" := PyDict {[ "b" := PyInt 2 ]} ]} ]}
           {[ "a" := PyInt 1; "b" := PyInt 2 ]}
           {[ "gpu" := PyDict {[ "b" := PyInt 2 ]} ]}
           {[ "b" := PyInt 2 ]}).
  - reflexivity.
  - reflexivity.
  - intros Hempty. apply (f_equal (fun d => d !! "a")) in Hempty. discriminate Hempty.
  - reflexivity.
  - reflexivity.
  - apply map_subseteq_spec. intros key v [<- <-]%lookup_singleton_Some.
    reflexivity.
Defined.

Lemma inline_cluster_config_sample :
  cluster_conf (single_file "conf.json" gpu_document) (configured_args "/Shared/etl/")
  = Return (PyDict {[ "num_workers" := PyInt 2 ]})
  /\ run (single_file "conf.json" gpu_document) (configured_args "/Shared/etl/")
     = run (fun _ => None) (configured_args "/Shared/etl/").
Proof.
  apply (inline_cluster_config_wins
           (single_file "conf.json" gpu_document) (fun _ => None)
           (configured_args "/Shared/etl/")).
  left. discriminate.
Defined.

Lemma runner_failure_sample :
  run (C := strict_collaborators) (single_file "conf.json" gpu_document)
      (configured_args "/Shared/etl/")
  = ([CallRunTests
        {| rts_pattern := "/Shared/etl/";
           rts_cluster_id := Some "0123-456789-abc";
           rts_cluster_conf := PyDict {[ "num_workers" := PyInt 2 ]};
           rts_timeout := 120;
           rts_max_parallel_tests := 1;
           rts_recursive := false;
           rts_poll_wait_time := 5;
           rts_notebook_params := PyDict {[ "env" := PyStr "dev" ]} |};
      LogFatal (CollaboratorError "HTTPError")],
     Raise (SystemExit 1)).
Proof.
  destruct (runner_failure_is_fatal (C := strict_collaborators)
              (single_file "conf.json" gpu_document) (configured_args "/Shared/etl/")
              (PyDict {[ "num_workers" := PyInt 2 ]})
              (CollaboratorError "HTTPError")) as [Hpattern _];
    [reflexivity | reflexivity | reflexivity |].
  apply Hpattern; reflexivity.
Defined.

Lemma five_results_accounted_for :
  let t := (_handle_reports (get_report_writer_manager JUNIT)
              [passing_result "/t/test_a"; passing_result "/t/test_b";
               garbled_result "/t/test_c"; passing_result "/t/test_d";
               passing_result "/t/test_e"]).1 in
  (length (reported t) + warning_count t)%nat = 5%nat.
Proof.
  assert (Hproviders : has_providers (get_report_writer_manager JUNIT) = true)
    by reflexivity.
  exact (every_result_reported_or_warned
           (get_report_writer_manager JUNIT)
           [passing_result "/t/test_a"; passing_result "/t/test_b";
            garbled_result "/t/test_c"; passing_result "/t/test_d";
            passing_result "/t/test_e"] Hproviders).
Defined.
